(** * OpenProject MCP server: the request/response adaptation layer

    A shallow embedding of the TypeScript server (the variant with the
    three tools [get_work_package_detail], [change_work_package_status]
    and [download_work_package_attachments]), of the response types of
    [openproject-api-types.ts], and of the credential computation of the Go
    variant ([main.go]).

    Conventions of the embedding.
    - A JavaScript string is a [string], read as the sequence of its UTF-8
      bytes; this is also what [Buffer.from(s)] hands to the base64 encoder.
    - A JavaScript [number] that the remote API defines as integral
      (identifiers, [lockVersion], sizes, percentages, HTTP status codes) is
      a [Z], printed in decimal by template literals.
    - The interfaces of [openproject-api-types.ts] are records; an optional
      member ([m?: T]) is an [option T], where [None] stands for a member
      that is missing or [null].
    - Values built by the program and handed to [JSON.stringify] are
      [jsval]s, so that [undefined] and [null] holes can be spoken about.
    - [await]ed effects (the network, the scratch directory) are threaded
      through a state-and-exception monad [M] over a [World]; an error
      event that no listener handles ends the process, which no [catch]
      sees.
    - Paths are those of a POSIX host: [path.join] normalises its result
      and [fs.mkdirSync] with [recursive] creates the missing ancestors. *)

From Stdlib Require Import ZArith Lia Ascii String DecimalString DecimalPos DecimalZ.
From stdpp Require Import strings gmap.

Open Scope string_scope.
Open Scope list_scope.
Open Scope Z_scope.
Open Scope stdpp_scope.

Set Warnings "-register-all".

(* ================================================================== *)
(** ** Strings and template literals *)

Module Str.

Definition quote_char : ascii := ascii_of_nat 34.
Definition backslash_char : ascii := ascii_of_nat 92.
Definition newline_char : ascii := ascii_of_nat 10.

(** One-character strings used inside template literals. *)
Definition dq : string := String quote_char "".
Definition nl : string := String newline_char "".

(** [`${n}`] for an integral number. *)
Definition of_Z (n : Z) : string := NilZero.string_of_int (Z.to_int n).

(** [Array.prototype.join]. *)
Definition join (sep : string) (l : list string) : string := String.concat sep l.

(** A string is falsy exactly when it is empty. *)
Definition is_empty (s : string) : bool :=
  match s with EmptyString => true | String _ _ => false end.

(** [s || d] on strings. *)
Definition or_else (s d : string) : string := if is_empty s then d else s.

End Str.

(* ================================================================== *)
(** ** Base64 ([Buffer.prototype.toString('base64')], Go's
       [base64.StdEncoding]): RFC 4648, standard alphabet, padded *)

Module Base64.

Definition alphabet : string :=
  "ABCDEFGHIJKLMNOPQRSTUVWXYZabcdefghijklmnopqrstuvwxyz0123456789+/".

Definition pad : ascii := "="%char.

(** The character of a 6-bit group. *)
Definition digit (n : N) : ascii :=
  match String.get (N.to_nat n) alphabet with
  | Some c => c
  | None => pad
  end.

Definition sextet (n : N) (shift : N) : ascii :=
  digit (N.land (N.shiftr n shift) 63).

(** A full group: three bytes give four characters. *)
Definition group3 (a b c : ascii) : string :=
  let n := N.lor (N.shiftl (N_of_ascii a) 16)
             (N.lor (N.shiftl (N_of_ascii b) 8) (N_of_ascii c)) in
  String (sextet n 18) (String (sextet n 12) (String (sextet n 6) (String (sextet n 0) ""))).

(** Two trailing bytes: three characters and one pad. *)
Definition group2 (a b : ascii) : string :=
  let n := N.lor (N.shiftl (N_of_ascii a) 16) (N.shiftl (N_of_ascii b) 8) in
  String (sextet n 18) (String (sextet n 12) (String (sextet n 6) (String pad ""))).

(** One trailing byte: two characters and two pads. *)
Definition group1 (a : ascii) : string :=
  let n := N.shiftl (N_of_ascii a) 16 in
  String (sextet n 18) (String (sextet n 12) (String pad (String pad ""))).

Fixpoint encode (bytes : string) : string :=
  match bytes with
  | "" => ""
  | String a "" => group1 a
  | String a (String b "") => group2 a b
  | String a (String b (String c rest)) => group3 a b c +:+ encode rest
  end.

End Base64.

(* ================================================================== *)
(** ** JavaScript values and [JSON.stringify] *)

Inductive jsval : Type :=
| JUndefined
| JNull
| JBool (b : bool)
| JNumber (n : Z)
| JString (s : string)
| JArray (elements : list jsval)
| JObject (members : list (string * jsval)).

Module JS.

(** ToBoolean: [undefined], [null], [false], [0] and the empty string are
    falsy; objects and arrays are truthy. *)
Definition truthy (v : jsval) : bool :=
  match v with
  | JUndefined | JNull => false
  | JBool b => b
  | JNumber n => negb (n =? 0)
  | JString s => negb (Str.is_empty s)
  | JArray _ | JObject _ => true
  end.

(** [a || b]. *)
Definition or (a b : jsval) : jsval := if truthy a then a else b.

(** Neither [undefined] nor [null]. *)
Definition defined (v : jsval) : bool :=
  match v with
  | JUndefined | JNull => false
  | _ => true
  end.

(** An optional member read as a JavaScript value. *)
Definition of_option {A} (f : A → jsval) (o : option A) : jsval :=
  match o with
  | Some a => f a
  | None => JUndefined
  end.

(** Property read on an object literal built by the program. *)
Fixpoint assoc (k : string) (ms : list (string * jsval)) : jsval :=
  match ms with
  | [] => JUndefined
  | (k', v) :: ms' => if String.eqb k k' then v else assoc k ms'
  end.

Definition get (k : string) (v : jsval) : jsval :=
  match v with
  | JObject ms => assoc k ms
  | _ => JUndefined
  end.

Definition hex_digit (n : N) : ascii :=
  match String.get (N.to_nat n) "0123456789abcdef" with
  | Some c => c
  | None => "0"%char
  end.

(** QuoteJSONString on one byte: the quote, the backslash and the control
    characters are escaped, every other byte is copied. *)
Definition escape (c : ascii) : string :=
  let n := N_of_ascii c in
  let bs := String Str.backslash_char "" in
  if (n =? 34)%N then bs +:+ Str.dq
  else if (n =? 92)%N then bs +:+ bs
  else if (n =? 8)%N then bs +:+ "b"
  else if (n =? 9)%N then bs +:+ "t"
  else if (n =? 10)%N then bs +:+ "n"
  else if (n =? 12)%N then bs +:+ "f"
  else if (n =? 13)%N then bs +:+ "r"
  else if (n <? 32)%N then
    bs +:+ "u00" +:+ String (hex_digit (N.shiftr n 4)) (String (hex_digit (N.land n 15)) "")
  else String c "".

Fixpoint escape_all (s : string) : string :=
  match s with
  | "" => ""
  | String c s' => escape c +:+ escape_all s'
  end.

Definition quote (s : string) : string := Str.dq +:+ escape_all s +:+ Str.dq.

(** SerializeJSONProperty with the indentation unit [gap] and the current
    indentation [indent]; [None] is the result [undefined]. *)
Fixpoint serialize (gap indent : string) (v : jsval) : option string :=
  match v with
  | JUndefined => None
  | JNull => Some "null"
  | JBool true => Some "true"
  | JBool false => Some "false"
  | JNumber n => Some (Str.of_Z n)
  | JString s => Some (quote s)
  | JArray elements =>
      let stepback := indent in
      let indent := indent +:+ gap in
      let partial :=
        map (fun e => default "null" (serialize gap indent e)) elements in
      Some (match partial with
            | [] => "[]"
            | _ =>
                if Str.is_empty gap then "[" +:+ Str.join "," partial +:+ "]"
                else
                  let separator := "," +:+ Str.nl +:+ indent in
                  "[" +:+ Str.nl +:+ indent +:+ Str.join separator partial
                  +:+ Str.nl +:+ stepback +:+ "]"
            end)
  | JObject members =>
      let stepback := indent in
      let indent := indent +:+ gap in
      let partial :=
        flat_map (fun m =>
                    match serialize gap indent (snd m) with
                    | Some s =>
                        [quote (fst m) +:+ ":"
                         +:+ (if Str.is_empty gap then "" else " ") +:+ s]
                    | None => []
                    end) members in
      Some (match partial with
            | [] => "{}"
            | _ =>
                if Str.is_empty gap then "{" +:+ Str.join "," partial +:+ "}"
                else
                  let separator := "," +:+ Str.nl +:+ indent in
                  "{" +:+ Str.nl +:+ indent +:+ Str.join separator partial
                  +:+ Str.nl +:+ stepback +:+ "}"
            end)
  end.

(** [JSON.stringify(v)] and [JSON.stringify(v, null, 2)], as they appear
    inside a template literal or as a request body. *)
Definition stringify (v : jsval) : string :=
  default "undefined" (serialize "" "" v).

Definition stringify_pretty (v : jsval) : string :=
  default "undefined" (serialize "  " "" v).

End JS.

(* ================================================================== *)
(** ** The response types of [openproject-api-types.ts]

    Members that the server never reads are left out of the records. *)

(** [id: string | number]. *)
Inductive ident : Type :=
| IdNumber (n : Z)
| IdString (s : string).

Module Ident.

Definition to_js (i : ident) : jsval :=
  match i with
  | IdNumber n => JNumber n
  | IdString s => JString s
  end.

(** [`${id}`]. *)
Definition to_string (i : ident) : string :=
  match i with
  | IdNumber n => Str.of_Z n
  | IdString s => s
  end.

End Ident.

Module Link.
(** [href] is declared [string]; the remote API writes a link without a
    target as [{ "href": null }], hence the option. *)
Record t : Type := mk {
  href : option string;
  title : option string;
  templated : option bool;
  method : option string
}.
End Link.

Module Links.
(** [{ self: Link; [key: string]: Link }]: the self link and a dictionary
    of further links. *)
Record t : Type := mk {
  self : Link.t;
  others : gmap string Link.t
}.

(** [links.k] for a key other than [self]; [None] is [undefined]. *)
Definition get (k : string) (l : t) : option Link.t := others l !! k.
End Links.

Module NamedResource.
(** Also stands for [Type], [Priority], [User] and [Project], of which
    only [name] and [id] are read. *)
Record t : Type := mk {
  _type : string;
  id : ident;
  _links : Links.t;
  name : string
}.
End NamedResource.

Module Status.
Record t : Type := mk {
  id : ident;
  _links : Links.t;
  name : string;
  isDefault : bool;
  isClosed : bool;
  color : string;
  position : Z
}.
End Status.

Module FormattedText.
Record t : Type := mk {
  format : string;
  raw : string;
  html : string
}.
End FormattedText.

Module WorkPackageEmbedded.
Record t : Type := mk {
  status : option Status.t;
  type : option NamedResource.t;
  priority : option NamedResource.t;
  project : option NamedResource.t;
  assignee : option NamedResource.t
}.
End WorkPackageEmbedded.

Module WorkPackage.
(** [_embedded] is declared mandatory, yet every read of it in the server
    goes through [?.]; the option keeps that case. *)
Record t : Type := mk {
  id : ident;
  _links : Links.t;
  subject : string;
  description : option FormattedText.t;
  startDate : option string;
  dueDate : option string;
  estimatedTime : option string;
  percentageDone : option Z;
  createdAt : string;
  updatedAt : string;
  lockVersion : Z;
  _embedded : option WorkPackageEmbedded.t
}.
End WorkPackage.

Module AvailableStatusesResponse.
(** [elements] is [_embedded.elements]. *)
Record t : Type := mk {
  total : Z;
  count : Z;
  elements : list Status.t;
  _links : Links.t
}.
End AvailableStatusesResponse.

Module Attachment.
Record t : Type := mk {
  id : ident;
  _links : Links.t;
  fileName : string;
  fileSize : Z;
  contentType : string
}.
End Attachment.

Module AttachmentCollectionResponse.
(** [elements] is [_embedded.elements]. *)
Record t : Type := mk {
  total : Z;
  count : Z;
  elements : list Attachment.t;
  _links : Links.t
}.
End AttachmentCollectionResponse.

Module ErrorResponse.
(** [message] is declared mandatory; the client guards it with [||]. *)
Record t : Type := mk {
  errorIdentifier : string;
  message : option string
}.
End ErrorResponse.

(* ================================================================== *)
(** ** The network, the scratch storage and the effect monad *)

Module Request.
Record t : Type := mk {
  url : string;
  method : string;
  headers : list (string * string);
  body : option string
}.

Fixpoint lookup (name : string) (hs : list (string * string)) : option string :=
  match hs with
  | [] => None
  | (k, v) :: hs' => if String.eqb name k then Some v else lookup name hs'
  end.

Definition header (name : string) (r : t) : option string :=
  lookup name (headers r).
End Request.

Module Response.
(** [text] is the body as received; [bodyError] is the error, if any, that
    the body stream emits while it is read or piped to a file. *)
Record t : Type := mk {
  status : Z;
  statusText : string;
  text : string;
  bodyError : option string
}.

(** [response.ok]: the status is in the range 200-299. *)
Definition ok (r : t) : bool := (200 <=? status r) && (status r <? 300).
End Response.

(** What [await fetch(url, options)] does: it rejects with an error message
    or resolves with a response. *)
Inductive FetchResult : Type :=
| Rejected (message : string)
| Resolved (response : Response.t).

(** The remote system: a state and its reaction to one request. *)
Class Remote (R : Type) : Type :=
  fetch : Request.t → R → FetchResult * R.

(** [JSON.parse(text) as T], [response.json() as T]: [None] when the text
    is not a JSON document of that shape. *)
Class FromJSON (T : Type) : Type :=
  from_json : string → option T.

(** What the host provides: [String.prototype.toLowerCase], [os.tmpdir()],
    the message of the error raised on malformed JSON, the message with
    which [response.text()] and [response.json()] reject when the body
    stream of the response to [url] fails with [message], and the error,
    if any, with which the host refuses to open a path for writing. *)
Class Host : Type := {
  toLowerCase : string → string;
  os_tmpdir : string;
  json_error : string → string;
  body_error : string → string → string;
  write_error : string → option string
}.

(** [config]. *)
Class Config : Type := {
  apiBaseUrl : string;
  apiKey : string
}.

Module World.
Record t (R : Type) : Type := mk {
  remote : R;
  sent : list Request.t;
  dirs : gset string;
  files : gmap string string
}.
Arguments mk {R} _ _ _ _.
Arguments remote {R} _.
Arguments sent {R} _.
Arguments dirs {R} _.
Arguments files {R} _.
End World.

(** How a computation ends: with a value, with a thrown [Error] of which
    only [message] is ever read, or with the death of the process on an
    error that nothing handles. *)
Inductive completion (A : Type) : Type :=
| Return (a : A)
| Throw (message : string)
| Dies (message : string).
Arguments Return {A} a.
Arguments Throw {A} message.
Arguments Dies {A} message.

Definition M (R A : Type) : Type := World.t R → completion A * World.t R.

Definition ret {R A} (a : A) : M R A := fun w => (Return a, w).

Definition throw {R A} (message : string) : M R A := fun w => (Throw message, w).

(** An ['error'] event without a listener: the process exits. *)
Definition die {R A} (message : string) : M R A := fun w => (Dies message, w).

Definition bind {R A B} (m : M R A) (k : A → M R B) : M R B :=
  fun w =>
    match m w with
    | (Return a, w') => k a w'
    | (Throw e, w') => (Throw e, w')
    | (Dies e, w') => (Dies e, w')
    end.

(** [try { m } catch (error) { h(error.message) }]; a dead process
    catches nothing. *)
Definition try_catch {R A} (m : M R A) (h : string → M R A) : M R A :=
  fun w =>
    match m w with
    | (Return a, w') => (Return a, w')
    | (Throw e, w') => h e w'
    | (Dies e, w') => (Dies e, w')
    end.

Notation "x <- m ;; k" := (bind m (fun x => k))
  (at level 100, m at next level, right associativity).
Notation "m ;;; k" := (bind m (fun _ => k))
  (at level 100, right associativity).

(** [await fetch(url, options)]: the request is recorded as sent. *)
Definition do_fetch {R} `{Remote R} (req : Request.t) : M R Response.t :=
  fun w =>
    let '(result, remote') := fetch req (World.remote w) in
    let w' := World.mk remote' (World.sent w ++ [req]) (World.dirs w) (World.files w) in
    match result with
    | Rejected e => (Throw e, w')
    | Resolved response => (Return response, w')
    end.

(** [fs.existsSync(dir)]. *)
Definition existsSync {R} (dir : string) : M R bool :=
  fun w => (Return (bool_decide (dir ∈ World.dirs w)), w).

(** [path] on a POSIX host. *)
Module Path.

Definition sep : ascii := "/"%char.

(** The segments between the separators; never the empty list. *)
Fixpoint split (s : string) : list string :=
  match s with
  | "" => [""]
  | String c s' =>
      if Ascii.eqb c sep then "" :: split s'
      else match split s' with
           | segment :: rest => String c segment :: rest
           | [] => [String c ""]
           end
  end.

Definition isAbsolute (s : string) : bool :=
  match s with
  | String c _ => Ascii.eqb c sep
  | "" => false
  end.

(** The last character is a separator. *)
Fixpoint trailingSeparator (s : string) : bool :=
  match s with
  | "" => false
  | String c "" => Ascii.eqb c sep
  | String _ s' => trailingSeparator s'
  end.

(** One segment of [normalizeString]; the segments kept so far are held
    last first.  An empty segment and [.] are dropped; [..] removes the
    last kept segment, unless there is none or it is [..] itself, in which
    case it is kept only where the path may climb above its start. *)
Definition step (allowAboveRoot : bool) (kept : list string) (segment : string)
    : list string :=
  if String.eqb segment "" || String.eqb segment "." then kept
  else if String.eqb segment ".." then
    match kept with
    | last :: kept' =>
        if String.eqb last ".." then
          (if allowAboveRoot then segment :: kept else kept)
        else kept'
    | [] => if allowAboveRoot then [segment] else []
    end
  else segment :: kept.

Definition normalizeString (path : string) (allowAboveRoot : bool) : string :=
  String.concat "/" (rev (fold_left (step allowAboveRoot) (split path) [])).

(** [path.normalize(path)]. *)
Definition normalize (path : string) : string :=
  match path with
  | "" => "."
  | _ =>
      let absolute := isAbsolute path in
      let trailing := trailingSeparator path in
      let path := normalizeString path (negb absolute) in
      match path with
      | "" => if absolute then "/" else if trailing then "./" else "."
      | _ =>
          let path := if trailing then path +:+ "/" else path in
          if absolute then "/" +:+ path else path
      end
  end.

(** The directories that a recursive [mkdir] makes sure of: the path and
    every prefix of it that ends before a separator. *)
Fixpoint chain (before s : string) : list string :=
  match s with
  | "" => if String.eqb before "" then [] else [before]
  | String c s' =>
      (if Ascii.eqb c sep && negb (String.eqb before "") && negb (trailingSeparator before)
       then [before] else [])
      ++ chain (before +:+ String c "") s'
  end.

End Path.

(** [path.join(a, b)]: the arguments that are not empty, joined by a
    separator and normalised. *)
Definition path_join (a b : string) : string :=
  match a, b with
  | "", "" => "."
  | "", _ => Path.normalize b
  | _, "" => Path.normalize a
  | _, _ => Path.normalize (a +:+ "/" +:+ b)
  end.

(** [fs.mkdirSync(dir, { recursive: true })]: the directory and its
    missing ancestors. *)
Definition mkdirSync {R} (dir : string) : M R unit :=
  fun w =>
    (Return tt,
     World.mk (World.remote w) (World.sent w)
       (list_to_set (Path.chain "" dir) ∪ World.dirs w) (World.files w)).

(** The write stream of [fs.createWriteStream(filePath)] with the body
    piped into it.  When the host refuses to open the path the stream
    emits ['error']; the program listens to ['finish'] only, so the process
    dies.  Otherwise the file holds what the body delivered. *)
Definition write_file {R} `{Host} (filePath content : string) : M R unit :=
  match write_error filePath with
  | Some message => die message
  | None =>
      fun w =>
        (Return tt,
         World.mk (World.remote w) (World.sent w) (World.dirs w)
           (<[filePath := content]> (World.files w)))
  end.

(** What a tool hands back: [content] holds one text item; [isError] is
    absent ([None]) on most success paths. *)
Module ToolResult.
Record t : Type := mk {
  text : string;
  isError : option bool
}.

(** A success-level response: [isError] is not [true]. *)
Definition success (r : t) : bool :=
  match isError r with
  | Some true => false
  | _ => true
  end.
End ToolResult.

(** A file recorded in [downloadedFiles]. *)
Module DownloadedFile.
Record t : Type := mk {
  id : ident;
  fileName : string;
  filePath : string;
  fileSize : Z;
  contentType : string
}.
End DownloadedFile.

(* ================================================================== *)
(** ** The server *)

Section Server.

Context `{Host} `{Config} {R : Type} `{Remote R}.
Context `{FromJSON WorkPackage.t} `{FromJSON AvailableStatusesResponse.t}.
Context `{FromJSON AttachmentCollectionResponse.t} `{FromJSON ErrorResponse.t}.

(** *** Authenticated HTTP client *)

(** [`Basic ${Buffer.from(`apikey:${config.apiKey}`).toString('base64')}`]. *)
Definition authorization : string :=
  "Basic " +:+ Base64.encode ("apikey:" +:+ apiKey).

Definition request_headers : list (string * string) :=
  [("Authorization", authorization); ("Content-Type", "application/json")].

Definition carries_body (method : string) : bool :=
  String.eqb method "POST" || String.eqb method "PATCH" || String.eqb method "PUT".

(** The message placed in the error of a non-success response. *)
Definition errorMessage (responseText : string) : string :=
  match from_json (T := ErrorResponse.t) responseText with
  | Some errorData =>
      Str.or_else (default "" (ErrorResponse.message errorData)) "Unknown error"
  | None => Str.or_else responseText "Unknown error"
  end.

(** [await response.text()], and the read inside [await response.json()]:
    the body once it has arrived whole; a body stream that fails makes the
    promise reject. *)
Definition read_text (req : Request.t) (response : Response.t) : M R string :=
  match Response.bodyError response with
  | Some message => throw (body_error (Request.url req) message)
  | None => ret (Response.text response)
  end.

(** The [url] and [options] that [callOpenProjectAPI] hands to [fetch]. *)
Definition api_request (endpoint method : string) (body : jsval) : Request.t :=
  let url := apiBaseUrl +:+ "/api/v3" +:+ endpoint in
  let headers := request_headers in
  Request.mk url method headers
    (if JS.truthy body && carries_body method
     then Some (JS.stringify body) else None).

Definition callOpenProjectAPI {T} `{FromJSON T}
    (endpoint method : string) (body : jsval) : M R T :=
  response <- do_fetch (api_request endpoint method body) ;;
  if negb (Response.ok response) then
    responseText <- read_text (api_request endpoint method body) response ;;
    throw ("OpenProject API error (" +:+ Str.of_Z (Response.status response)
           +:+ "): " +:+ errorMessage responseText)
  else
    responseText <- read_text (api_request endpoint method body) response ;;
    match from_json responseText with
    | Some responseData => ret responseData
    | None => throw (json_error responseText)
    end.

(** *** Response reducer *)

Definition embedded_name (member : WorkPackageEmbedded.t → option NamedResource.t)
    (workPackage : WorkPackage.t) : jsval :=
  JS.of_option JString
    (NamedResource.name <$> (WorkPackage._embedded workPackage ≫= member)).

Definition formatWorkPackage (workPackage : WorkPackage.t)
    (statuses : AvailableStatusesResponse.t) : jsval :=
  JObject [
    ("id", Ident.to_js (WorkPackage.id workPackage));
    ("subject", JString (WorkPackage.subject workPackage));
    ("status",
      JS.or (JS.of_option JString
               (Status.name <$> (WorkPackage._embedded workPackage
                                   ≫= WorkPackageEmbedded.status)))
            (JString "Unknown status"));
    ("type",
      JS.or (embedded_name WorkPackageEmbedded.type workPackage)
            (JString "Unknown type"));
    ("priority",
      JS.or (embedded_name WorkPackageEmbedded.priority workPackage)
            (JString "Unknown priority"));
    ("assignee",
      JS.or (embedded_name WorkPackageEmbedded.assignee workPackage)
            (JString "Unassigned"));
    ("project",
      JS.or (embedded_name WorkPackageEmbedded.project workPackage)
            (JString "Unknown project"));
    ("projectId",
      JS.or (JS.of_option Ident.to_js
               (NamedResource.id <$> (WorkPackage._embedded workPackage
                                        ≫= WorkPackageEmbedded.project)))
            (JNumber 0));
    ("description",
      JS.or (JS.of_option JString
               (FormattedText.raw <$> WorkPackage.description workPackage))
            (JString "No description"));
    ("createdAt", JString (WorkPackage.createdAt workPackage));
    ("updatedAt", JString (WorkPackage.updatedAt workPackage));
    ("startDate",
      JS.or (JS.of_option JString (WorkPackage.startDate workPackage))
            (JString "No start date"));
    ("dueDate",
      JS.or (JS.of_option JString (WorkPackage.dueDate workPackage))
            (JString "No due date"));
    ("estimatedTime",
      JS.or (JS.of_option JString (WorkPackage.estimatedTime workPackage))
            (JString "No estimate"));
    ("percentageDone",
      JS.or (JS.of_option JNumber (WorkPackage.percentageDone workPackage))
            (JNumber 0));
    ("lockVersion", JNumber (WorkPackage.lockVersion workPackage));
    ("statuses",
      JArray (map (fun e => JString (Status.name e))
                (AvailableStatusesResponse.elements statuses)))
  ].

(** *** Tool 1: get work package detail *)

Definition get_work_package_detail (workPackageId : Z) : M R ToolResult.t :=
  try_catch
    (data <- callOpenProjectAPI (T := WorkPackage.t)
               ("/work_packages/" +:+ Str.of_Z workPackageId) "GET" JUndefined ;;
     statuses <- callOpenProjectAPI (T := AvailableStatusesResponse.t)
               "/statuses" "GET" JUndefined ;;
     let formattedResponse := formatWorkPackage data statuses in
     ret (ToolResult.mk
            ("Work Package #" +:+ Str.of_Z workPackageId +:+ " Details:" +:+ Str.nl
             +:+ JS.stringify_pretty formattedResponse)
            None))
    (fun message =>
       ret (ToolResult.mk
              ("Error retrieving work package #" +:+ Str.of_Z workPackageId
               +:+ ": " +:+ message)
              (Some true))).

(** *** Tool 2: change work package status *)

(** The predicate of [elements.find]. *)
Definition status_matches (status : string) (s : Status.t) : bool :=
  String.eqb (toLowerCase (Status.name s)) (toLowerCase status).

(** The text of a status the server reads through [?.] into a template
    literal: an absent one prints as [undefined]. *)
Definition current_status_name (workPackage : WorkPackage.t) : string :=
  default "undefined"
    (Status.name <$> (WorkPackage._embedded workPackage ≫= WorkPackageEmbedded.status)).

Definition updatePayload (workPackage : WorkPackage.t) (targetStatus : Status.t) : jsval :=
  JObject [
    ("lockVersion", JNumber (WorkPackage.lockVersion workPackage));
    ("_links",
      JObject [
        ("status",
          JObject [
            ("href",
              match Link.href (Links.self (Status._links targetStatus)) with
              | Some href => JString href
              | None => JNull
              end)
          ])
      ])
  ].

Definition change_work_package_status (workPackageId : Z) (status : string)
    : M R ToolResult.t :=
  try_catch
    (workPackage <- callOpenProjectAPI (T := WorkPackage.t)
               ("/work_packages/" +:+ Str.of_Z workPackageId) "GET" JUndefined ;;
     statuses <- callOpenProjectAPI (T := AvailableStatusesResponse.t)
               "/statuses" "GET" JUndefined ;;
     match List.find (status_matches status)
             (AvailableStatusesResponse.elements statuses) with
     | None =>
         let availableStatusNames :=
           Str.join ", " (map Status.name (AvailableStatusesResponse.elements statuses)) in
         ret (ToolResult.mk
                ("Error: Status " +:+ Str.dq +:+ status +:+ Str.dq
                 +:+ " is not available for work package #" +:+ Str.of_Z workPackageId
                 +:+ ". Available statuses are: " +:+ availableStatusNames)
                (Some true))
     | Some targetStatus =>
         updatedWorkPackage <- callOpenProjectAPI (T := WorkPackage.t)
               ("/work_packages/" +:+ Str.of_Z workPackageId) "PATCH"
               (updatePayload workPackage targetStatus) ;;
         let formattedWorkPackage := formatWorkPackage updatedWorkPackage statuses in
         ret (ToolResult.mk
                ("Successfully updated work package #" +:+ Str.of_Z workPackageId
                 +:+ " status from " +:+ Str.dq +:+ current_status_name workPackage +:+ Str.dq
                 +:+ " to " +:+ Str.dq +:+ Status.name targetStatus +:+ Str.dq +:+ "."
                 +:+ Str.nl +:+ Str.nl +:+ "Updated work package:" +:+ Str.nl
                 +:+ JS.stringify_pretty formattedWorkPackage)
                None)
     end)
    (fun message =>
       ret (ToolResult.mk
              ("Error updating work package #" +:+ Str.of_Z workPackageId
               +:+ " status: " +:+ message)
              (Some true))).

(** *** Attachment fetcher *)

(** The [url] and [options] that [downloadFile] hands to [fetch]. *)
Definition download_request (endpoint : string) : Request.t :=
  let url := apiBaseUrl +:+ endpoint in
  let headers := request_headers in
  Request.mk url "GET" headers None.

Definition downloadFile (endpoint filePath : string) : M R unit :=
  response <- do_fetch (download_request endpoint) ;;
  if negb (Response.ok response) then
    throw ("Failed to download file: " +:+ Str.of_Z (Response.status response)
           +:+ " " +:+ Response.statusText response)
  else
    write_file filePath (Response.text response) ;;;
    match Response.bodyError response with
    | Some message => throw message
    | None => ret tt
    end.

(** The message of the [TypeError] raised by [undefined.href]. *)
Definition href_of_undefined : string :=
  "Cannot read properties of undefined (reading 'href')".

(** [attachment._links.staticDownloadLocation.href]: reading [href] off a
    link that the dictionary lacks throws. *)
Definition staticDownloadLocation_href (attachment : Attachment.t)
    : M R (option string) :=
  match Links.get "staticDownloadLocation" (Attachment._links attachment) with
  | Some link => ret (Link.href link)
  | None => throw href_of_undefined
  end.

Definition attachment_label (attachment : Attachment.t) : string :=
  Attachment.fileName attachment +:+ " (ID: "
  +:+ Ident.to_string (Attachment.id attachment) +:+ ")".

Definition skipped_entry (attachment : Attachment.t) : string :=
  "⚠️ Skipped " +:+ attachment_label attachment +:+ ": Download URL not available".

Definition downloaded_entry (attachment : Attachment.t) : string :=
  "✅ Downloaded " +:+ attachment_label attachment.

Definition failed_entry (attachment : Attachment.t) (message : string) : string :=
  "❌ Failed to download " +:+ attachment_label attachment +:+ ": " +:+ message.

Definition attachment_path (tempDir : string) (attachment : Attachment.t) : string :=
  path_join tempDir
    (Ident.to_string (Attachment.id attachment) +:+ "." +:+ Attachment.fileName attachment).

(** The [for (const attachment of ...)] loop; the two arrays it pushes to
    are threaded as accumulators.  [!downloadUrl] holds of a target that is
    missing, [null] or empty. *)
Fixpoint download_each (tempDir : string) (elements : list Attachment.t)
    (downloadResults : list string) (downloadedFiles : list DownloadedFile.t)
    : M R (list string * list DownloadedFile.t) :=
  match elements with
  | [] => ret (downloadResults, downloadedFiles)
  | attachment :: rest =>
      downloadUrl <- staticDownloadLocation_href attachment ;;
      match downloadUrl with
      | Some (String c url') =>
          let endpoint := String c url' in
          pushed <-
            try_catch
              (let filePath := attachment_path tempDir attachment in
               downloadFile endpoint filePath ;;;
               ret (downloadResults ++ [downloaded_entry attachment],
                    downloadedFiles ++
                      [DownloadedFile.mk (Attachment.id attachment)
                         (Attachment.fileName attachment) filePath
                         (Attachment.fileSize attachment)
                         (Attachment.contentType attachment)]))
              (fun message =>
                 ret (downloadResults ++ [failed_entry attachment message],
                      downloadedFiles)) ;;
          download_each tempDir rest (fst pushed) (snd pushed)
      | _ =>
          download_each tempDir rest
            (downloadResults ++ [skipped_entry attachment]) downloadedFiles
      end
  end.

Definition fileMapping (downloadedFiles : list DownloadedFile.t) : jsval :=
  JArray (map (fun file =>
                 JObject [
                   ("id", Ident.to_js (DownloadedFile.id file));
                   ("filePath", JString (DownloadedFile.filePath file));
                   ("contentType", JString (DownloadedFile.contentType file))
                 ]) downloadedFiles).

(** *** Tool 3: download all attachments of a work package *)

Definition scratch_directory (workPackageId : Z) : string :=
  path_join os_tmpdir ("openproject/" +:+ Str.of_Z workPackageId).

Definition download_work_package_attachments (workPackageId : Z) : M R ToolResult.t :=
  try_catch
    (attachments <- callOpenProjectAPI (T := AttachmentCollectionResponse.t)
               ("/work_packages/" +:+ Str.of_Z workPackageId +:+ "/attachments")
               "GET" JUndefined ;;
     if AttachmentCollectionResponse.total attachments =? 0 then
       ret (ToolResult.mk
              ("No attachments found for work package #" +:+ Str.of_Z workPackageId +:+ ".")
              (Some false))
     else
       let tempDir := scratch_directory workPackageId in
       present <- existsSync tempDir ;;
       (if negb present then mkdirSync tempDir else ret tt) ;;;
       results <- download_each tempDir
                    (AttachmentCollectionResponse.elements attachments) [] [] ;;
       let '(downloadResults, downloadedFiles) := results in
       ret (ToolResult.mk
              ("Download results for work package #" +:+ Str.of_Z workPackageId +:+ ":"
               +:+ Str.nl +:+ Str.join Str.nl downloadResults
               +:+ Str.nl +:+ Str.nl +:+ "Files saved to: " +:+ tempDir
               +:+ Str.nl +:+ Str.nl +:+ "File mapping:" +:+ Str.nl
               +:+ JS.stringify_pretty (fileMapping downloadedFiles))
              None))
    (fun message =>
       ret (ToolResult.mk
              ("Error processing attachments for work package #"
               +:+ Str.of_Z workPackageId +:+ ": " +:+ message)
              (Some true))).

(** *** Notions used to state the properties *)

(** The attachment carries a [staticDownloadLocation] link, with or
    without a target. *)
Definition has_download_link (attachment : Attachment.t) : Prop :=
  is_Some (Links.get "staticDownloadLocation" (Attachment._links attachment)).

(** What happened to one attachment. *)
Inductive outcome : Type :=
| Skipped
| Downloaded
| Failed (message : string).

Definition entry_of (attachment : Attachment.t) (o : outcome) : string :=
  match o with
  | Skipped => skipped_entry attachment
  | Downloaded => downloaded_entry attachment
  | Failed message => failed_entry attachment message
  end.

Definition file_of (tempDir : string) (attachment : Attachment.t) (o : outcome)
    : list DownloadedFile.t :=
  match o with
  | Downloaded =>
      [DownloadedFile.mk (Attachment.id attachment) (Attachment.fileName attachment)
         (attachment_path tempDir attachment) (Attachment.fileSize attachment)
         (Attachment.contentType attachment)]
  | _ => []
  end.

Fixpoint entries_of (elements : list Attachment.t) (os : list outcome) : list string :=
  match elements, os with
  | a :: elements', o :: os' => entry_of a o :: entries_of elements' os'
  | _, _ => []
  end.

Fixpoint files_of (tempDir : string) (elements : list Attachment.t) (os : list outcome)
    : list DownloadedFile.t :=
  match elements, os with
  | a :: elements', o :: os' => file_of tempDir a o ++ files_of tempDir elements' os'
  | _, _ => []
  end.

Definition is_failed (o : outcome) : bool :=
  match o with Failed _ => true | _ => false end.

(** The transfers of a run of the loop over attachments that all carry
    the link: each attachment is skipped, or [downloadFile] is run on it
    in the world left by its predecessors and returns or throws. *)
Inductive transfers (tempDir : string)
    : list Attachment.t → World.t R → list outcome → World.t R → Prop :=
| transfers_nil w : transfers tempDir [] w [] w
| transfers_skip a rest link w os w' :
    Links.get "staticDownloadLocation" (Attachment._links a) = Some link →
    Link.href link = None ∨ Link.href link = Some "" →
    transfers tempDir rest w os w' →
    transfers tempDir (a :: rest) w (Skipped :: os) w'
| transfers_done a rest link c url w w1 os w' :
    Links.get "staticDownloadLocation" (Attachment._links a) = Some link →
    Link.href link = Some (String c url) →
    downloadFile (String c url) (attachment_path tempDir a) w = (Return tt, w1) →
    transfers tempDir rest w1 os w' →
    transfers tempDir (a :: rest) w (Downloaded :: os) w'
| transfers_failed a rest link c url message w w1 os w' :
    Links.get "staticDownloadLocation" (Attachment._links a) = Some link →
    Link.href link = Some (String c url) →
    downloadFile (String c url) (attachment_path tempDir a) w = (Throw message, w1) →
    transfers tempDir rest w1 os w' →
    transfers tempDir (a :: rest) w (Failed message :: os) w'.

(** The world in which the loop starts: the scratch directory exists. *)
Definition with_directory (dir : string) (w : World.t R) : World.t R :=
  if bool_decide (dir ∈ World.dirs w) then w
  else World.mk (World.remote w) (World.sent w)
         (list_to_set (Path.chain "" dir) ∪ World.dirs w) (World.files w).

(** The request carries the Basic credential derived from the key. *)
Definition authorized (req : Request.t) : Prop :=
  Request.header "Authorization" req
  = Some ("Basic " +:+ Base64.encode ("apikey:" +:+ apiKey)).

(** Every request that a computation sends is authorized. *)
Definition sends_authorized {A} (m : M R A) : Prop :=
  ∀ w, ∃ l, World.sent (snd (m w)) = World.sent w ++ l ∧ Forall authorized l.

End Server.

(** *** The Go variant ([main.go]): the credential and the request of
    [get_detail_work_package_by_id] *)

Module Go.

(** ["Basic " + base64.StdEncoding.EncodeToString([]byte("apikey:"+apiKey))]. *)
Definition basicAuth (apiKey : string) : string :=
  "Basic " +:+ Base64.encode ("apikey:" +:+ apiKey).

Definition newRequest (apiKey : string) (workPackageID : Z) : Request.t :=
  Request.mk
    ("https://project.mywelly.vn/api/v3/work_packages/" +:+ Str.of_Z workPackageID)
    "GET"
    [("Accept", "application/hal+json"); ("Authorization", basicAuth apiKey)]
    None.

End Go.

(** *** The Go variant, continued: the tool [get_detail_work_package_by_id]
    and the resolution of the key in [main] *)

Module GoTool.

(** [WorkPackageResponse], with the nested anonymous structs flattened:
    [Attachments] holds the [DownloadLocation.Href] of every embedded
    attachment, [Activities] the [Comment.Raw] of every embedded activity.
    A member that the document lacks has the zero value of its type. *)
Record WorkPackageResponse : Type := mkResponse {
  ID : Z;
  Subject : string;
  Description_Raw : string;
  Links_Status_Title : string;
  Links_Assignee_Title : string;
  Attachments : list string;
  Activities : list string
}.

Record MinimalWorkPackage : Type := mkMinimal {
  id : Z;
  subject : string;
  status : string;
  assignee : string;
  description : string;
  evidence : string;
  comment : string
}.

(** [encoding/json]: decoding into [WorkPackageResponse] ([None] is an
    error, whose text is [unmarshal_error]) and the text of a value. *)
Class Json : Type := {
  json_Unmarshal : string → option WorkPackageResponse;
  unmarshal_error : string → string;
  json_Marshal : jsval → string
}.

(** The key of [main]: the flag [--apikey], else the variable
    [OPENPROJECT_API_KEY]; [None] is the panic on an empty key. *)
Definition resolve_key (flag : string) (env : string) : option string :=
  let apiKey := flag in
  let apiKey := if Str.is_empty apiKey then env else apiKey in
  if Str.is_empty apiKey then None else Some apiKey.

(** The composite literal and the two [if len(...) > 0] blocks. *)
Definition minimal (wpResp : WorkPackageResponse) : MinimalWorkPackage :=
  let wp :=
    mkMinimal (ID wpResp) (Subject wpResp) (Links_Status_Title wpResp)
      (Links_Assignee_Title wpResp) (Description_Raw wpResp) "" "" in
  let wp :=
    match Attachments wpResp with
    | first :: _ =>
        mkMinimal (id wp) (subject wp) (status wp) (assignee wp) (description wp)
          first (comment wp)
    | [] => wp
    end in
  match Activities wpResp with
  | firstComment :: _ =>
      if Str.is_empty firstComment then wp
      else mkMinimal (id wp) (subject wp) (status wp) (assignee wp) (description wp)
             (evidence wp) firstComment
  | [] => wp
  end.

(** The members that [json.Marshal] writes for a [MinimalWorkPackage]:
    [evidence] and [comment] are tagged [omitempty]. *)
Definition members (wp : MinimalWorkPackage) : list (string * jsval) :=
  [("id", JNumber (id wp)); ("subject", JString (subject wp));
   ("status", JString (status wp)); ("assignee", JString (assignee wp));
   ("description", JString (description wp))]
  ++ (if Str.is_empty (evidence wp) then [] else [("evidence", JString (evidence wp))])
  ++ (if Str.is_empty (comment wp) then [] else [("comment", JString (comment wp))]).

Section Tool.

Context {R : Type} `{Remote R} `{Json}.

(** The tool: [Throw] is the [error] it returns to the framework,
    [Return] the text of its response. *)
Definition get_detail_work_package_by_id (apiKey : string) (WorkPackageID : Z)
    : M R string :=
  resp <- do_fetch (Go.newRequest apiKey WorkPackageID) ;;
  match Response.bodyError resp with
  | Some message => throw message
  | None =>
      let body := Response.text resp in
      match json_Unmarshal body with
      | None => throw (unmarshal_error body)
      | Some wpResp => ret (json_Marshal (JObject (members (minimal wpResp))))
      end
  end.

End Tool.

End GoTool.

(** *** Start-up of the TypeScript server: arguments, environment and the
    check of the key *)

Module Startup.

(** [values] of [parseArgs]. *)
Record Args : Type := mkArgs {
  api_url : option string;
  api_key : option string;
  help : option bool
}.

(** [process.env] once [dotenv.config()] has run. *)
Record Env : Type := mkEnv {
  OPENPROJECT_API_URL : option string;
  OPENPROJECT_API_KEY : option string
}.

(** [a || b] for an optional string [a]. *)
Definition or_string (a : option string) (b : string) : string :=
  Str.or_else (default "" a) b.

(** The process exits with a code, or goes on to serve with a [config]. *)
Inductive outcome : Type :=
| Exit (code : Z)
| Serve (config : Config).

Definition startup (args : Args) (env : Env) : outcome :=
  if default false (help args) then Exit 0
  else
    let config :=
      Build_Config
        (or_string (api_url args)
           (or_string (OPENPROJECT_API_URL env) "https://project.mywelly.vn"))
        (or_string (api_key args) (or_string (OPENPROJECT_API_KEY env) "")) in
    if Str.is_empty (apiKey (Config := config)) then Exit 1 else Serve config.

End Startup.

(** *** The first TypeScript variant ([index.ts]): the same client and the
    first two tools, on a base address that already ends in [/api/v3] *)

Module IndexTs.

Section Server.

Context `{Host} `{Config} {R : Type} `{Remote R}.
Context `{FromJSON WorkPackage.t} `{FromJSON AvailableStatusesResponse.t}.
Context `{FromJSON ErrorResponse.t}.

Definition api_request (endpoint method : string) (body : jsval) : Request.t :=
  let url := apiBaseUrl +:+ endpoint in
  let headers := request_headers in
  Request.mk url method headers
    (if JS.truthy body && carries_body method
     then Some (JS.stringify body) else None).

Definition callOpenProjectAPI {T} `{FromJSON T}
    (endpoint method : string) (body : jsval) : M R T :=
  response <- do_fetch (api_request endpoint method body) ;;
  if negb (Response.ok response) then
    responseText <- read_text (api_request endpoint method body) response ;;
    throw ("OpenProject API error (" +:+ Str.of_Z (Response.status response)
           +:+ "): " +:+ errorMessage responseText)
  else
    responseText <- read_text (api_request endpoint method body) response ;;
    match from_json responseText with
    | Some responseData => ret responseData
    | None => throw (json_error responseText)
    end.

Definition get_work_package_detail (workPackageId : Z) : M R ToolResult.t :=
  try_catch
    (data <- callOpenProjectAPI (T := WorkPackage.t)
               ("/work_packages/" +:+ Str.of_Z workPackageId) "GET" JUndefined ;;
     statuses <- callOpenProjectAPI (T := AvailableStatusesResponse.t)
               "/statuses" "GET" JUndefined ;;
     let formattedResponse := formatWorkPackage data statuses in
     ret (ToolResult.mk
            ("Work Package #" +:+ Str.of_Z workPackageId +:+ " Details:" +:+ Str.nl
             +:+ JS.stringify_pretty formattedResponse)
            None))
    (fun message =>
       ret (ToolResult.mk
              ("Error retrieving work package #" +:+ Str.of_Z workPackageId
               +:+ ": " +:+ message)
              (Some true))).

Definition change_work_package_status (workPackageId : Z) (status : string)
    : M R ToolResult.t :=
  try_catch
    (workPackage <- callOpenProjectAPI (T := WorkPackage.t)
               ("/work_packages/" +:+ Str.of_Z workPackageId) "GET" JUndefined ;;
     statuses <- callOpenProjectAPI (T := AvailableStatusesResponse.t)
               "/statuses" "GET" JUndefined ;;
     match List.find (status_matches status)
             (AvailableStatusesResponse.elements statuses) with
     | None =>
         let availableStatusNames :=
           Str.join ", " (map Status.name (AvailableStatusesResponse.elements statuses)) in
         ret (ToolResult.mk
                ("Error: Status " +:+ Str.dq +:+ status +:+ Str.dq
                 +:+ " is not available for work package #" +:+ Str.of_Z workPackageId
                 +:+ ". Available statuses are: " +:+ availableStatusNames)
                (Some true))
     | Some targetStatus =>
         updatedWorkPackage <- callOpenProjectAPI (T := WorkPackage.t)
               ("/work_packages/" +:+ Str.of_Z workPackageId) "PATCH"
               (updatePayload workPackage targetStatus) ;;
         let formattedWorkPackage := formatWorkPackage updatedWorkPackage statuses in
         ret (ToolResult.mk
                ("Successfully updated work package #" +:+ Str.of_Z workPackageId
                 +:+ " status from " +:+ Str.dq +:+ current_status_name workPackage +:+ Str.dq
                 +:+ " to " +:+ Str.dq +:+ Status.name targetStatus +:+ Str.dq +:+ "."
                 +:+ Str.nl +:+ Str.nl +:+ "Updated work package:" +:+ Str.nl
                 +:+ JS.stringify_pretty formattedWorkPackage)
                None)
     end)
    (fun message =>
       ret (ToolResult.mk
              ("Error updating work package #" +:+ Str.of_Z workPackageId
               +:+ " status: " +:+ message)
              (Some true))).

End Server.

End IndexTs.

(** *** The compiled first variant (the JavaScript text that follows
    [main.go]): the line that logs the key at start-up *)

Module Compiled.

(** [String.prototype.substr(start, length)] on a string of bytes; a
    negative [start] counts from the end, an absent [length] runs to the
    end. *)
Definition substr (s : string) (start : Z) (length : option Z) : string :=
  let size := Z.of_nat (String.length s) in
  let start := if start <? 0 then Z.max (size + start) 0 else Z.min start size in
  let length :=
    match length with
    | Some l => Z.min (Z.max l 0) (size - start)
    | None => size - start
    end in
  String.substring (Z.to_nat start) (Z.to_nat length) s.

(** The text of [console.log(`API Key: ${...}`)]. *)
Definition key_line (apiKey : string) : string :=
  "API Key: "
  +:+ (if Str.is_empty apiKey then "[Not Set]"
       else substr apiKey 0 (Some 3) +:+ "..." +:+ substr apiKey (-3) None).

End Compiled.

(** *** Further notions used to state properties *)

(** The character [c] occurs in [s]. *)
Fixpoint occurs (c : ascii) (s : string) : bool :=
  match s with
  | "" => false
  | String c' s' => Ascii.eqb c c' || occurs c s'
  end.

(** A path segment that normalisation keeps as it is. *)
Definition plain_segment (s : string) : Prop :=
  occurs Path.sep s = false ∧ s ≠ "" ∧ s ≠ "." ∧ s ≠ "..".

(** The text of segments, each followed by a separator. *)
Fixpoint each_with_sep (l : list string) : string :=
  match l with
  | [] => ""
  | x :: l' => x +:+ "/" +:+ each_with_sep l'
  end.

Section Notions.

Context `{Config} {R : Type} `{Remote R}.

(** Every request that a computation sends satisfies [P]. *)
Definition sends_only {A} (P : Request.t → Prop) (m : M R A) : Prop :=
  ∀ w, ∃ l, World.sent (snd (m w)) = World.sent w ++ l ∧ Forall P l.

(** A computation ends the process only with an error that satisfies
    [P]. *)
Definition dies_within {A} (P : string → Prop) (m : M R A) : Prop :=
  ∀ w e, fst (m w) = Dies e → P e.

(** A request that reads: a GET without a body. *)
Definition reads (req : Request.t) : Prop :=
  Request.method req = "GET" ∧ Request.body req = None.

(** The target of the download link of an attachment, empty when there
    is none. *)
Definition download_target (attachment : Attachment.t) : string :=
  default ""
    (Links.get "staticDownloadLocation" (Attachment._links attachment) ≫= Link.href).

(** The requests of the transfers of a run of the loop. *)
Fixpoint requests_of (elements : list Attachment.t) (os : list outcome)
    : list Request.t :=
  match elements, os with
  | a :: elements', Skipped :: os' => requests_of elements' os'
  | a :: elements', _ :: os' =>
      download_request (download_target a) :: requests_of elements' os'
  | _, _ => []
  end.

End Notions.

(* ================================================================== *)
(** ** A concrete host and remote system

    The scenario of the specification: work item 42 with the catalog
    New / In Progress / Closed, and a few attachment collections.  The
    remote is stateless and answers by method and address. *)

Module Demo.

Definition lower_char (c : ascii) : ascii :=
  let n := N_of_ascii c in
  if ((65 <=? n) && (n <=? 90))%N then ascii_of_N (n + 32) else c.

Fixpoint lower (s : string) : string :=
  match s with
  | "" => ""
  | String c s' => String (lower_char c) (lower s')
  end.

(** The host lets a file be written directly inside a scratch directory
    [/tmp/openproject/<id>] and nowhere else. *)
Definition refuse_outside_scratch (path : string) : option string :=
  match Path.split path with
  | [""; "tmp"; "openproject"; _; _] => None
  | _ => Some ("ENOENT: no such file or directory, open '" +:+ path +:+ "'")
  end.

#[export] Instance host : Host := {|
  toLowerCase := lower;
  os_tmpdir := "/tmp";
  json_error := fun _ => "Unexpected end of JSON input";
  body_error := fun url message =>
    "Invalid response body while trying to fetch " +:+ url +:+ ": " +:+ message;
  write_error := refuse_outside_scratch
|}.

#[export] Instance config : Config := {|
  apiBaseUrl := "https://openproject.example.org";
  apiKey := "abc"
|}.

Definition link (href : string) : Link.t := Link.mk (Some href) None None None.

Definition only_self (href : string) : Links.t := Links.mk (link href) ∅.

Definition mk_status (id : Z) (name : string) (closed : bool) : Status.t :=
  Status.mk (IdNumber id) (only_self ("/api/v3/statuses/" +:+ Str.of_Z id))
    name false closed "#000000" id.

Definition status_new : Status.t := mk_status 1 "New" false.
Definition status_in_progress : Status.t := mk_status 7 "In Progress" false.
Definition status_closed : Status.t := mk_status 12 "Closed" true.

Definition catalog : AvailableStatusesResponse.t :=
  AvailableStatusesResponse.mk 3 3
    [status_new; status_in_progress; status_closed]
    (only_self "/api/v3/statuses").

Definition work_package (id lockVersion : Z) (status : Status.t) : WorkPackage.t :=
  WorkPackage.mk (IdNumber id) (only_self ("/api/v3/work_packages/" +:+ Str.of_Z id))
    "Fix login" None None None None None
    "2024-01-01T00:00:00Z" "2024-01-02T00:00:00Z" lockVersion
    (Some (WorkPackageEmbedded.mk (Some status) None None None None)).

Definition attachment (id : Z) (fileName : string) (links : gmap string Link.t)
    : Attachment.t :=
  Attachment.mk (IdNumber id)
    (Links.mk (link ("/api/v3/attachments/" +:+ Str.of_Z id)) links)
    fileName 10 "application/octet-stream".

Definition content_of (id : Z) : string :=
  "/api/v3/attachments/" +:+ Str.of_Z id +:+ "/content".

(** Downloadable. *)
Definition att_spec : Attachment.t :=
  attachment 1 "spec.pdf" {["staticDownloadLocation" := link (content_of 1)]}.
(** The link is there, its target is [null]. *)
Definition att_log : Attachment.t :=
  attachment 2 "log.txt" {["staticDownloadLocation" := Link.mk None None None None]}.
(** Its transfer is answered with 500. *)
Definition att_shot : Attachment.t :=
  attachment 3 "shot.png" {["staticDownloadLocation" := link (content_of 3)]}.
(** No [staticDownloadLocation] link at all. *)
Definition att_bare : Attachment.t :=
  attachment 4 "notes.md" ∅.

Definition collection (l : list Attachment.t) : AttachmentCollectionResponse.t :=
  AttachmentCollectionResponse.mk (Z.of_nat (length l)) (Z.of_nat (length l)) l
    (only_self "/api/v3/work_packages/attachments").

Definition conflict : ErrorResponse.t :=
  ErrorResponse.mk "urn:openproject-org:api:v3:errors:UpdateConflict"
    (Some "Could not update the resource because of conflicting modifications.").

(** The bodies are named by short texts; the decoders below read them. *)
Definition respond (req : Request.t) : FetchResult :=
  let base := "https://openproject.example.org" in
  let at_ (path : string) := String.eqb (Request.url req) (base +:+ path) in
  let ok_ (text : string) := Resolved (Response.mk 200 "OK" text None) in
  if String.eqb (Request.method req) "PATCH" then
    if at_ "/api/v3/work_packages/42" then ok_ "wp42-closed"
    else Resolved (Response.mk 409 "Conflict" "conflict" None)
  else if at_ "/api/v3/work_packages/42" then ok_ "wp42"
  else if at_ "/api/v3/work_packages/43" then ok_ "wp43"
  else if at_ "/api/v3/statuses" then ok_ "statuses"
  else if at_ "/api/v3/work_packages/42/attachments" then ok_ "attachments-42"
  else if at_ "/api/v3/work_packages/7/attachments" then ok_ "attachments-7"
  else if at_ "/api/v3/work_packages/8/attachments" then ok_ "attachments-8"
  else if at_ "/api/v3/work_packages/9/attachments" then ok_ "attachments-9"
  else if at_ (content_of 1) then ok_ "%PDF"
  else if at_ (content_of 3) then
    Resolved (Response.mk 500 "Internal Server Error" "" None)
  else Resolved (Response.mk 404 "Not Found" "" None).

#[export] Instance remote : Remote unit := fun req _ => (respond req, tt).

#[export] Instance work_package_from_json : FromJSON WorkPackage.t :=
  fun text =>
    if String.eqb text "wp42" then Some (work_package 42 3 status_new)
    else if String.eqb text "wp43" then Some (work_package 43 5 status_new)
    else if String.eqb text "wp42-closed" then Some (work_package 42 4 status_closed)
    else None.

#[export] Instance statuses_from_json : FromJSON AvailableStatusesResponse.t :=
  fun text => if String.eqb text "statuses" then Some catalog else None.

#[export] Instance attachments_from_json : FromJSON AttachmentCollectionResponse.t :=
  fun text =>
    if String.eqb text "attachments-42"
    then Some (collection [att_spec; att_log; att_shot])
    else if String.eqb text "attachments-7" then Some (collection [att_shot; att_bare])
    else if String.eqb text "attachments-8" then Some (collection [])
    else if String.eqb text "attachments-9" then Some (collection [att_spec; att_bare])
    else None.

#[export] Instance error_from_json : FromJSON ErrorResponse.t :=
  fun text => if String.eqb text "conflict" then Some conflict else None.

Definition world0 : World.t unit := World.mk tt [] ∅ ∅.

(** The worlds reached by the fetches of the tools from [world0]. *)
Definition after_work_package (workPackageId : Z) : World.t unit :=
  snd (callOpenProjectAPI (T := WorkPackage.t)
         ("/work_packages/" +:+ Str.of_Z workPackageId) "GET" JUndefined world0).

Definition after_statuses (workPackageId : Z) : World.t unit :=
  snd (callOpenProjectAPI (T := AvailableStatusesResponse.t)
         "/statuses" "GET" JUndefined (after_work_package workPackageId)).

Definition after_attachments (workPackageId : Z) : World.t unit :=
  snd (callOpenProjectAPI (T := AttachmentCollectionResponse.t)
         ("/work_packages/" +:+ Str.of_Z workPackageId +:+ "/attachments")
         "GET" JUndefined world0).

End Demo.

(** A second remote system, which answers from a script whatever is
    asked, with a catalog in which two names are equal up to case, a
    catalog with an empty name, a work package with every optional member
    set, and the Go decoder. *)

Module Script.

#[export] Instance host : Host := Demo.host.

#[export] Instance config : Config := Demo.config.

(** The configuration of the first variant for the same remote system. *)
Definition first_config : Config := {|
  apiBaseUrl := "https://openproject.example.org/api/v3";
  apiKey := "abc"
|}.

#[export] Instance remote : Remote (list FetchResult) :=
  fun _ script =>
    match script with
    | answer :: rest => (answer, rest)
    | [] => (Rejected "socket hang up", [])
    end.

Definition ok_ (text : string) : FetchResult := Resolved (Response.mk 200 "OK" text None).

Definition status_closed_upper : Status.t := Demo.mk_status 20 "CLOSED" true.

Definition catalog_ties : AvailableStatusesResponse.t :=
  AvailableStatusesResponse.mk 3 3
    [Demo.status_new; status_closed_upper; Demo.status_closed]
    (Demo.only_self "/api/v3/statuses").

Definition assignee : NamedResource.t :=
  NamedResource.mk "User" (IdNumber 5) (Demo.only_self "/api/v3/users/5") "Ada".

Definition work_package_full : WorkPackage.t :=
  WorkPackage.mk (IdNumber 42) (Demo.only_self "/api/v3/work_packages/42")
    "Fix login"
    (Some (FormattedText.mk "markdown" "Users cannot log in." "<p>Users cannot log in.</p>"))
    (Some "2024-01-03") (Some "2024-01-10") (Some "PT8H") (Some 40)
    "2024-01-01T00:00:00Z" "2024-01-02T00:00:00Z" 3
    (Some (WorkPackageEmbedded.mk (Some Demo.status_in_progress) None None None
             (Some assignee))).

(** A status whose display name is empty, and a catalog that holds it. *)
Definition status_blank : Status.t := Demo.mk_status 30 "" false.

Definition catalog_blank : AvailableStatusesResponse.t :=
  AvailableStatusesResponse.mk 2 2
    [Demo.status_new; status_blank]
    (Demo.only_self "/api/v3/statuses").

#[export] Instance work_package_from_json : FromJSON WorkPackage.t :=
  fun text =>
    if String.eqb text "wp-full" then Some work_package_full
    else if String.eqb text "wp42-blank" then Some (Demo.work_package 42 4 status_blank)
    else Demo.work_package_from_json text.

#[export] Instance statuses_from_json : FromJSON AvailableStatusesResponse.t :=
  fun text =>
    if String.eqb text "statuses-ties" then Some catalog_ties
    else if String.eqb text "statuses-blank" then Some catalog_blank
    else Demo.statuses_from_json text.

#[export] Instance attachments_from_json : FromJSON AttachmentCollectionResponse.t :=
  Demo.attachments_from_json.

#[export] Instance error_from_json : FromJSON ErrorResponse.t := Demo.error_from_json.

Definition go_response : GoTool.WorkPackageResponse :=
  GoTool.mkResponse 42 "Fix login" "Users cannot log in." "New" "Ada"
    ["/api/v3/attachments/1/content"; "/api/v3/attachments/3/content"]
    [""; "Reproduced on staging."].

#[export] Instance go_json : GoTool.Json := {|
  GoTool.json_Unmarshal := fun text =>
    if String.eqb text "go-work-package" then Some go_response else None;
  GoTool.unmarshal_error := fun _ => "unexpected end of JSON input";
  GoTool.json_Marshal := JS.stringify
|}.

Definition world (script : list FetchResult) : World.t (list FetchResult) :=
  World.mk script [] ∅ ∅.

End Script.

(* ================================================================== *)
(** ** Properties *)

(** Setters used to compare a work package with and without a member. *)
Module Update.

Definition description (d : option FormattedText.t) (w : WorkPackage.t) : WorkPackage.t :=
  WorkPackage.mk (WorkPackage.id w) (WorkPackage._links w) (WorkPackage.subject w)
    d (WorkPackage.startDate w) (WorkPackage.dueDate w) (WorkPackage.estimatedTime w)
    (WorkPackage.percentageDone w) (WorkPackage.createdAt w) (WorkPackage.updatedAt w)
    (WorkPackage.lockVersion w) (WorkPackage._embedded w).

Definition startDate (d : option string) (w : WorkPackage.t) : WorkPackage.t :=
  WorkPackage.mk (WorkPackage.id w) (WorkPackage._links w) (WorkPackage.subject w)
    (WorkPackage.description w) d (WorkPackage.dueDate w) (WorkPackage.estimatedTime w)
    (WorkPackage.percentageDone w) (WorkPackage.createdAt w) (WorkPackage.updatedAt w)
    (WorkPackage.lockVersion w) (WorkPackage._embedded w).

Definition dueDate (d : option string) (w : WorkPackage.t) : WorkPackage.t :=
  WorkPackage.mk (WorkPackage.id w) (WorkPackage._links w) (WorkPackage.subject w)
    (WorkPackage.description w) (WorkPackage.startDate w) d (WorkPackage.estimatedTime w)
    (WorkPackage.percentageDone w) (WorkPackage.createdAt w) (WorkPackage.updatedAt w)
    (WorkPackage.lockVersion w) (WorkPackage._embedded w).

Definition estimatedTime (d : option string) (w : WorkPackage.t) : WorkPackage.t :=
  WorkPackage.mk (WorkPackage.id w) (WorkPackage._links w) (WorkPackage.subject w)
    (WorkPackage.description w) (WorkPackage.startDate w) (WorkPackage.dueDate w) d
    (WorkPackage.percentageDone w) (WorkPackage.createdAt w) (WorkPackage.updatedAt w)
    (WorkPackage.lockVersion w) (WorkPackage._embedded w).

Definition percentageDone (d : option Z) (w : WorkPackage.t) : WorkPackage.t :=
  WorkPackage.mk (WorkPackage.id w) (WorkPackage._links w) (WorkPackage.subject w)
    (WorkPackage.description w) (WorkPackage.startDate w) (WorkPackage.dueDate w)
    (WorkPackage.estimatedTime w) d (WorkPackage.createdAt w) (WorkPackage.updatedAt w)
    (WorkPackage.lockVersion w) (WorkPackage._embedded w).

End Update.

(** The member names of the projected record, in the order of the
    object literal. *)
Definition formatted_keys : list string :=
  ["id"; "subject"; "status"; "type"; "priority"; "assignee"; "project";
   "projectId"; "description"; "createdAt"; "updatedAt"; "startDate";
   "dueDate"; "estimatedTime"; "percentageDone"; "lockVersion"; "statuses"].

Lemma of_Z_nonempty (n : Z) : Str.of_Z n ≠ "".
Proof.
  unfold Str.of_Z. destruct (Z.to_int n) as [u|u]; simpl.
  - destruct u; discriminate.
  - discriminate.
Qed.

Lemma or_else_nonempty (s d : string) : d ≠ "" → Str.or_else s d ≠ "".
Proof. unfold Str.or_else. destruct s; simpl; [tauto | discriminate]. Qed.

Lemma or_defined (a b : jsval) : JS.defined b = true → JS.defined (JS.or a b) = true.
Proof. unfold JS.or. destruct a as [| |[]|n|s| |]; simpl; try tauto; try reflexivity.
  - destruct (n =? 0); simpl; tauto.
  - destruct s; simpl; tauto.
Qed.

Section Properties.

Context `{Host} `{Config} {R : Type} `{Remote R}.
Context `{FromJSON WorkPackage.t} `{FromJSON AvailableStatusesResponse.t}.
Context `{FromJSON AttachmentCollectionResponse.t} `{FromJSON ErrorResponse.t}.

(** *** The reducer *)

(** C9.  The projected record has the seventeen members of the object
    literal and none of them is [null] or [undefined]; an absent assignee,
    description, start date, due date, estimate or percentage is replaced
    by its placeholder; the member [statuses] lists the names of the
    catalog handed to the reducer; and [get_work_package_detail] hands the
    reducer the work package and the catalog it fetched in that
    invocation. *)
Theorem formatWorkPackage_defaults (workPackage : WorkPackage.t)
    (statuses : AvailableStatusesResponse.t) :
  ∃ members : list (string * jsval),
    formatWorkPackage workPackage statuses = JObject members
    ∧ map fst members = formatted_keys
    ∧ Forall (fun m => JS.defined (snd m) = true) members
    ∧ ((WorkPackage._embedded workPackage ≫= WorkPackageEmbedded.assignee) = None →
       JS.assoc "assignee" members = JString "Unassigned")
    ∧ (WorkPackage.description workPackage = None →
       JS.assoc "description" members = JString "No description")
    ∧ (WorkPackage.startDate workPackage = None →
       JS.assoc "startDate" members = JString "No start date")
    ∧ (WorkPackage.dueDate workPackage = None →
       JS.assoc "dueDate" members = JString "No due date")
    ∧ (WorkPackage.estimatedTime workPackage = None →
       JS.assoc "estimatedTime" members = JString "No estimate")
    ∧ (WorkPackage.percentageDone workPackage = None →
       JS.assoc "percentageDone" members = JNumber 0)
    ∧ JS.assoc "statuses" members
      = JArray (map (fun e => JString (Status.name e))
                  (AvailableStatusesResponse.elements statuses))
    ∧ (∀ (workPackageId : Z) (w0 w1 w2 : World.t R),
         callOpenProjectAPI (T := WorkPackage.t)
           ("/work_packages/" +:+ Str.of_Z workPackageId) "GET" JUndefined w0
         = (Return workPackage, w1) →
         callOpenProjectAPI (T := AvailableStatusesResponse.t)
           "/statuses" "GET" JUndefined w1
         = (Return statuses, w2) →
         get_work_package_detail workPackageId w0
         = (Return (ToolResult.mk
                      ("Work Package #" +:+ Str.of_Z workPackageId +:+ " Details:"
                       +:+ Str.nl +:+ JS.stringify_pretty (JObject members))
                      None), w2)).
Proof.
  eexists. split; [reflexivity|]. split; [reflexivity|].
  split.
  { repeat (apply Forall_cons; split;
            [first [ apply or_defined; reflexivity
                   | reflexivity
                   | simpl; destruct (WorkPackage.id workPackage); reflexivity ]|]).
    constructor. }
  split. { intros E. simpl. unfold embedded_name. rewrite E. reflexivity. }
  split. { intros E. simpl. rewrite E. reflexivity. }
  split. { intros E. simpl. rewrite E. reflexivity. }
  split. { intros E. simpl. rewrite E. reflexivity. }
  split. { intros E. simpl. rewrite E. reflexivity. }
  split. { intros E. simpl. rewrite E. reflexivity. }
  split. { reflexivity. }
  intros workPackageId w0 w1 w2 E1 E2.
  unfold get_work_package_detail, try_catch, bind.
  rewrite E1, E2. reflexivity.
Qed.

(** C10.  A description with an empty raw text, an empty start date, due
    date or estimate, and a percentage equal to zero are projected exactly
    as the same member being absent. *)
Theorem formatWorkPackage_conflates_falsy (workPackage : WorkPackage.t)
    (statuses : AvailableStatusesResponse.t) (format html : string) :
  formatWorkPackage
    (Update.description (Some (FormattedText.mk format "" html)) workPackage) statuses
  = formatWorkPackage (Update.description None workPackage) statuses
  ∧ formatWorkPackage (Update.startDate (Some "") workPackage) statuses
    = formatWorkPackage (Update.startDate None workPackage) statuses
  ∧ formatWorkPackage (Update.dueDate (Some "") workPackage) statuses
    = formatWorkPackage (Update.dueDate None workPackage) statuses
  ∧ formatWorkPackage (Update.estimatedTime (Some "") workPackage) statuses
    = formatWorkPackage (Update.estimatedTime None workPackage) statuses
  ∧ formatWorkPackage (Update.percentageDone (Some 0) workPackage) statuses
    = formatWorkPackage (Update.percentageDone None workPackage) statuses.
Proof. repeat split. Qed.

(** *** The client *)

(** What one call leaves behind: the remote has reacted to the request,
    the request is recorded, the scratch storage is untouched. *)
Lemma callOpenProjectAPI_world {T} `{FromJSON T} (endpoint method : string)
    (body : jsval) (w : World.t R) :
  snd (callOpenProjectAPI (T := T) endpoint method body w)
  = World.mk (snd (fetch (api_request endpoint method body) (World.remote w)))
      (World.sent w ++ [api_request endpoint method body])
      (World.dirs w) (World.files w).
Proof.
  unfold callOpenProjectAPI, bind, do_fetch, read_text.
  destruct (fetch _ _) as [[e|response] r']; simpl; [reflexivity|].
  destruct (Response.ok response); simpl;
    destruct (Response.bodyError response); simpl; try reflexivity.
  destruct (from_json _); reflexivity.
Qed.

(** The client never ends the process. *)
Lemma callOpenProjectAPI_lives {T} `{FromJSON T} (endpoint method : string)
    (body : jsval) (w : World.t R) (e : string) :
  fst (callOpenProjectAPI (T := T) endpoint method body w) ≠ Dies e.
Proof.
  unfold callOpenProjectAPI, bind, do_fetch, read_text.
  destruct (fetch _ _) as [[x|response] r']; simpl; [discriminate|].
  destruct (Response.ok response); simpl;
    destruct (Response.bodyError response); simpl; try discriminate.
  destruct (from_json _); discriminate.
Qed.

Lemma callOpenProjectAPI_returns {T} `{FromJSON T} (endpoint method : string)
    (body : jsval) (w w' : World.t R) (v : T) :
  callOpenProjectAPI (T := T) endpoint method body w = (Return v, w') →
  World.sent w' = World.sent w ++ [api_request endpoint method body]
  ∧ World.dirs w' = World.dirs w ∧ World.files w' = World.files w.
Proof.
  intros E. pose proof (callOpenProjectAPI_world endpoint method body w) as W.
  rewrite E in W. simpl in W. subst w'. auto.
Qed.

Lemma errorMessage_nonempty (responseText : string) : errorMessage responseText ≠ "".
Proof.
  unfold errorMessage.
  destruct (from_json responseText); apply or_else_nonempty; discriminate.
Qed.

(** C7, as the client has it.  On a response whose status is outside
    200-299 the client never returns a value: it throws.  When the body
    has arrived whole, the message of the error holds the status code and a
    non-empty text, namely the [message] of the error document when the
    body parses and that member is non-empty, the raw body when the body
    does not parse and is non-empty, and ["Unknown error"] in the remaining
    cases.  When the body stream fails, the rejection of
    [response.text()] is thrown as it is, without the status code. *)
Theorem callOpenProjectAPI_non_success {T} `{FromJSON T} (endpoint method : string)
    (body : jsval) (w : World.t R) (response : Response.t) (remote' : R) :
  fetch (api_request endpoint method body) (World.remote w) = (Resolved response, remote') →
  Response.ok response = false →
  (∃ cause, fst (callOpenProjectAPI (T := T) endpoint method body w) = Throw cause)
  ∧ (Response.bodyError response = None →
     ∃ message : string,
       fst (callOpenProjectAPI (T := T) endpoint method body w)
       = Throw ("OpenProject API error (" +:+ Str.of_Z (Response.status response)
                +:+ "): " +:+ message)
       ∧ message ≠ ""
       ∧ (∀ errorData m,
            from_json (T := ErrorResponse.t) (Response.text response) = Some errorData →
            ErrorResponse.message errorData = Some m → m ≠ "" → message = m)
       ∧ (from_json (T := ErrorResponse.t) (Response.text response) = None →
          Response.text response ≠ "" → message = Response.text response)
       ∧ (∀ errorData,
            from_json (T := ErrorResponse.t) (Response.text response) = Some errorData →
            ErrorResponse.message errorData = None
            ∨ ErrorResponse.message errorData = Some "" →
            message = "Unknown error")
       ∧ (from_json (T := ErrorResponse.t) (Response.text response) = None →
          Response.text response = "" → message = "Unknown error"))
  ∧ (∀ failure, Response.bodyError response = Some failure →
       fst (callOpenProjectAPI (T := T) endpoint method body w)
       = Throw (body_error (Request.url (api_request endpoint method body)) failure)).
Proof.
  intros F K.
  assert (Run : fst (callOpenProjectAPI (T := T) endpoint method body w)
                = match Response.bodyError response with
                  | Some failure =>
                      Throw (body_error (Request.url (api_request endpoint method body))
                               failure)
                  | None =>
                      Throw ("OpenProject API error (" +:+ Str.of_Z (Response.status response)
                             +:+ "): " +:+ errorMessage (Response.text response))
                  end).
  { unfold callOpenProjectAPI, bind, do_fetch, read_text. rewrite F. simpl. rewrite K. simpl.
    destruct (Response.bodyError response); reflexivity. }
  split; [rewrite Run; destruct (Response.bodyError response); eauto|].
  split; [|intros failure B; rewrite Run, B; reflexivity].
  intros B. rewrite B in Run. exists (errorMessage (Response.text response)).
  split; [exact Run|].
  split; [apply errorMessage_nonempty|].
  unfold errorMessage.
  destruct (from_json (T := ErrorResponse.t) (Response.text response)) as [d|].
  - split.
    { intros errorData m E1 E2 N. injection E1 as <-. rewrite E2. simpl.
      destruct m; [contradiction|reflexivity]. }
    split; [discriminate|].
    split; [|discriminate].
    intros errorData E1 [E2|E2]; injection E1 as <-; rewrite E2; reflexivity.
  - split; [discriminate|].
    split.
    { intros _ N. destruct (Response.text response); [contradiction|reflexivity]. }
    split; [discriminate|].
    intros _ E. rewrite E. reflexivity.
Qed.

(** *** Changing the status *)

(** C1.  When the work package and the catalog have been fetched and the
    requested name resolves to a status, the invocation sends three
    requests: the two fetches and one PATCH, whose body is the JSON text
    of an object with exactly the members [lockVersion], copied from the
    fetched work package, and [_links], itself holding the single member
    [status] with the [href] of the self link of the resolved status. *)
Theorem change_status_update_request (workPackageId : Z) (status : string)
    (w0 w1 w2 : World.t R) (workPackage : WorkPackage.t)
    (statuses : AvailableStatusesResponse.t) (targetStatus : Status.t) :
  callOpenProjectAPI (T := WorkPackage.t)
    ("/work_packages/" +:+ Str.of_Z workPackageId) "GET" JUndefined w0
  = (Return workPackage, w1) →
  callOpenProjectAPI (T := AvailableStatusesResponse.t) "/statuses" "GET" JUndefined w1
  = (Return statuses, w2) →
  List.find (status_matches status) (AvailableStatusesResponse.elements statuses)
  = Some targetStatus →
  World.sent (snd (change_work_package_status workPackageId status w0))
  = World.sent w0 ++
    [ api_request ("/work_packages/" +:+ Str.of_Z workPackageId) "GET" JUndefined;
      api_request "/statuses" "GET" JUndefined;
      Request.mk (apiBaseUrl +:+ "/api/v3" +:+ "/work_packages/" +:+ Str.of_Z workPackageId)
        "PATCH" request_headers
        (Some (JS.stringify
                 (JObject [
                    ("lockVersion", JNumber (WorkPackage.lockVersion workPackage));
                    ("_links",
                      JObject [
                        ("status",
                          JObject [
                            ("href",
                              match Link.href (Links.self (Status._links targetStatus)) with
                              | Some href => JString href
                              | None => JNull
                              end)])])]))) ].
Proof.
  intros E1 E2 F.
  destruct (callOpenProjectAPI_returns _ _ _ _ _ _ E1) as (S1 & _ & _).
  destruct (callOpenProjectAPI_returns _ _ _ _ _ _ E2) as (S2 & _ & _).
  unfold change_work_package_status, try_catch, bind.
  rewrite E1, E2, F.
  pose proof (callOpenProjectAPI_world (T := WorkPackage.t)
                ("/work_packages/" +:+ Str.of_Z workPackageId) "PATCH"
                (updatePayload workPackage targetStatus) w2) as W.
  destruct (callOpenProjectAPI _ _ _ w2) as [[updated|e|e] w3]; simpl in W; subst w3; simpl;
    rewrite S2, S1, <- !app_assoc; reflexivity.
Qed.

(** C3.  When the work package and the catalog have been fetched and no
    name of the catalog equals the requested name up to case, the tool
    returns a failure whose text names the requested status and ends with
    the names of the catalog, in catalog order, joined by a comma and a
    space; it is returned by the resolver itself, in the world reached by
    the two fetches, so that only the two GET requests have been sent. *)
Theorem change_status_unknown_name (workPackageId : Z) (status : string)
    (w0 w1 w2 : World.t R) (workPackage : WorkPackage.t)
    (statuses : AvailableStatusesResponse.t) :
  callOpenProjectAPI (T := WorkPackage.t)
    ("/work_packages/" +:+ Str.of_Z workPackageId) "GET" JUndefined w0
  = (Return workPackage, w1) →
  callOpenProjectAPI (T := AvailableStatusesResponse.t) "/statuses" "GET" JUndefined w1
  = (Return statuses, w2) →
  (∀ s, In s (AvailableStatusesResponse.elements statuses) →
        toLowerCase (Status.name s) ≠ toLowerCase status) →
  change_work_package_status workPackageId status w0
  = (Return (ToolResult.mk
               ("Error: Status " +:+ Str.dq +:+ status +:+ Str.dq
                +:+ " is not available for work package #" +:+ Str.of_Z workPackageId
                +:+ ". Available statuses are: "
                +:+ Str.join ", "
                      (map Status.name (AvailableStatusesResponse.elements statuses)))
               (Some true)), w2)
  ∧ World.sent w2
    = World.sent w0 ++
      [ api_request ("/work_packages/" +:+ Str.of_Z workPackageId) "GET" JUndefined;
        api_request "/statuses" "GET" JUndefined ]
  ∧ Forall (fun req => Request.method req = "GET" ∧ Request.body req = None)
      [ api_request ("/work_packages/" +:+ Str.of_Z workPackageId) "GET" JUndefined;
        api_request "/statuses" "GET" JUndefined ].
Proof.
  intros E1 E2 N.
  destruct (callOpenProjectAPI_returns _ _ _ _ _ _ E1) as (S1 & _ & _).
  destruct (callOpenProjectAPI_returns _ _ _ _ _ _ E2) as (S2 & _ & _).
  assert (F : List.find (status_matches status)
                (AvailableStatusesResponse.elements statuses) = None).
  { destruct (List.find _ _) as [s|] eqn:F; [|reflexivity].
    apply find_some in F as [I E]. unfold status_matches in E.
    apply String.eqb_eq in E. destruct (N s I E). }
  split.
  { unfold change_work_package_status, try_catch, bind. rewrite E1, E2, F. reflexivity. }
  split.
  { rewrite S2, S1, <- app_assoc. reflexivity. }
  repeat constructor.
Qed.

Lemma find_finds {A} (f : A → bool) (l : list A) (x : A) :
  In x l → f x = true → ∃ y, List.find f l = Some y.
Proof.
  intros I E. destruct (List.find f l) as [y|] eqn:F; [eauto|].
  pose proof (find_none f l F x I) as N. congruence.
Qed.

(** C2, as the server has it.  When the work package and the catalog have
    been fetched and the requested name equals, up to case, the name of a
    catalog entry, names being unique in the catalog up to case, the
    resolver finds a status with the name of that entry as the catalog
    spells it.  If the remote system accepts the update, the tool succeeds
    and its text reports the transition to that name; the member [status]
    of the returned record is that name as soon as the answer to the update
    embeds a status so named and the name is not empty.  If the update
    fails, the tool returns a failure that carries the cause. *)
Theorem change_status_matching_name (workPackageId : Z) (status : string)
    (w0 w1 w2 : World.t R) (workPackage : WorkPackage.t)
    (statuses : AvailableStatusesResponse.t) (entry : Status.t) :
  callOpenProjectAPI (T := WorkPackage.t)
    ("/work_packages/" +:+ Str.of_Z workPackageId) "GET" JUndefined w0
  = (Return workPackage, w1) →
  callOpenProjectAPI (T := AvailableStatusesResponse.t) "/statuses" "GET" JUndefined w1
  = (Return statuses, w2) →
  In entry (AvailableStatusesResponse.elements statuses) →
  toLowerCase (Status.name entry) = toLowerCase status →
  (∀ s, In s (AvailableStatusesResponse.elements statuses) →
        toLowerCase (Status.name s) = toLowerCase (Status.name entry) →
        Status.name s = Status.name entry) →
  ∃ targetStatus,
    List.find (status_matches status) (AvailableStatusesResponse.elements statuses)
    = Some targetStatus
    ∧ Status.name targetStatus = Status.name entry
    ∧ (∀ updatedWorkPackage w3,
         callOpenProjectAPI (T := WorkPackage.t)
           ("/work_packages/" +:+ Str.of_Z workPackageId) "PATCH"
           (updatePayload workPackage targetStatus) w2
         = (Return updatedWorkPackage, w3) →
         change_work_package_status workPackageId status w0
         = (Return (ToolResult.mk
                      ("Successfully updated work package #" +:+ Str.of_Z workPackageId
                       +:+ " status from " +:+ Str.dq +:+ current_status_name workPackage
                       +:+ Str.dq
                       +:+ " to " +:+ Str.dq +:+ Status.name entry +:+ Str.dq +:+ "."
                       +:+ Str.nl +:+ Str.nl +:+ "Updated work package:" +:+ Str.nl
                       +:+ JS.stringify_pretty
                             (formatWorkPackage updatedWorkPackage statuses))
                      None), w3)
         ∧ (∀ embedded reported,
              WorkPackage._embedded updatedWorkPackage = Some embedded →
              WorkPackageEmbedded.status embedded = Some reported →
              Status.name reported = Status.name entry →
              Status.name entry ≠ "" →
              JS.get "status" (formatWorkPackage updatedWorkPackage statuses)
              = JString (Status.name entry)))
    ∧ (∀ cause w3,
         callOpenProjectAPI (T := WorkPackage.t)
           ("/work_packages/" +:+ Str.of_Z workPackageId) "PATCH"
           (updatePayload workPackage targetStatus) w2
         = (Throw cause, w3) →
         change_work_package_status workPackageId status w0
         = (Return (ToolResult.mk
                      ("Error updating work package #" +:+ Str.of_Z workPackageId
                       +:+ " status: " +:+ cause) (Some true)), w3)).
Proof.
  intros E1 E2 I L U.
  assert (M : status_matches status entry = true).
  { unfold status_matches. apply String.eqb_eq. exact L. }
  destruct (find_finds _ _ _ I M) as [targetStatus F].
  pose proof (find_some _ _ F) as [I' M'].
  unfold status_matches in M'. apply String.eqb_eq in M'.
  assert (N : Status.name targetStatus = Status.name entry).
  { apply U; [exact I' | congruence]. }
  exists targetStatus. split; [exact F|]. split; [exact N|]. split.
  - intros updatedWorkPackage w3 P. split.
    + unfold change_work_package_status, try_catch, bind.
      rewrite E1, E2, F, P, N. reflexivity.
    + intros embedded reported Em St Nm Ne. simpl. rewrite Em. simpl. rewrite St. simpl.
      rewrite Nm. destruct (Status.name entry); [contradiction|reflexivity].
  - intros cause w3 P.
    unfold change_work_package_status, try_catch, bind.
    rewrite E1, E2, F, P. reflexivity.
Qed.

(** *** Downloading attachments *)

(** C6.  When the attachment collection has been fetched and its [total]
    is zero, the tool returns, with [isError: false], the text saying that
    no attachments were found; the world is the one reached by the fetch,
    in which no directory and no file has been added. *)
Theorem download_no_attachments (workPackageId : Z) (w0 w1 : World.t R)
    (attachments : AttachmentCollectionResponse.t) :
  callOpenProjectAPI (T := AttachmentCollectionResponse.t)
    ("/work_packages/" +:+ Str.of_Z workPackageId +:+ "/attachments") "GET" JUndefined w0
  = (Return attachments, w1) →
  AttachmentCollectionResponse.total attachments = 0 →
  download_work_package_attachments workPackageId w0
  = (Return (ToolResult.mk
               ("No attachments found for work package #" +:+ Str.of_Z workPackageId +:+ ".")
               (Some false)), w1)
  ∧ World.dirs w1 = World.dirs w0
  ∧ World.files w1 = World.files w0.
Proof.
  intros E Z0.
  destruct (callOpenProjectAPI_returns _ _ _ _ _ _ E) as (_ & D & F).
  split; [|auto].
  unfold download_work_package_attachments, try_catch, bind.
  rewrite E, Z0. reflexivity.
Qed.

(** A link that is present but has no target, or an empty one, is a skip:
    the entry is recorded and the loop goes on with the next attachment. *)
Lemma download_each_skips (tempDir : string) (attachment : Attachment.t)
    (rest : list Attachment.t) (link : Link.t)
    (downloadResults : list string) (downloadedFiles : list DownloadedFile.t) :
  Links.get "staticDownloadLocation" (Attachment._links attachment) = Some link →
  Link.href link = None ∨ Link.href link = Some "" →
  download_each tempDir (attachment :: rest) downloadResults downloadedFiles
  = download_each tempDir rest
      (downloadResults ++ [skipped_entry attachment]) downloadedFiles.
Proof.
  intros L E. simpl. unfold staticDownloadLocation_href. rewrite L.
  destruct E as [-> | ->]; reflexivity.
Qed.


Lemma transfers_length tempDir elements w os w' :
  transfers tempDir elements w os w' → length os = length elements.
Proof. induction 1; simpl; congruence. Qed.

(** What one transfer leaves behind, however it ends. *)
Lemma downloadFile_log (endpoint filePath : string) (w : World.t R) :
  World.sent (snd (downloadFile endpoint filePath w))
  = World.sent w ++ [download_request endpoint]
  ∧ World.dirs (snd (downloadFile endpoint filePath w)) = World.dirs w.
Proof.
  unfold downloadFile, bind, do_fetch, write_file.
  destruct (fetch _ _) as [[e|response] r']; simpl; [auto|].
  destruct (Response.ok response); simpl; [|auto].
  destruct (write_error filePath); simpl; [auto|].
  destruct (Response.bodyError response); simpl; auto.
Qed.

(** A transfer ends the process only when the host refuses to open its
    destination. *)
Lemma downloadFile_dies (endpoint filePath : string) (w : World.t R) (e : string) :
  fst (downloadFile endpoint filePath w) = Dies e → write_error filePath = Some e.
Proof.
  unfold downloadFile, bind, do_fetch, write_file.
  destruct (fetch _ _) as [[x|response] r']; simpl; [discriminate|].
  destruct (Response.ok response); simpl; [|discriminate].
  destruct (write_error filePath); simpl; [congruence|].
  destruct (Response.bodyError response); discriminate.
Qed.

(** Over attachments that all carry the link and whose destinations can
    all be opened, the loop runs to its end. *)
Lemma transfers_total (tempDir : string) (elements : list Attachment.t) :
  Forall has_download_link elements →
  Forall (fun a => write_error (attachment_path tempDir a) = None) elements →
  ∀ w, ∃ os w', transfers tempDir elements w os w'.
Proof.
  induction 1 as [|a rest [link L] _ IH]; intros Wr w.
  - exists [], w. constructor.
  - apply Forall_cons in Wr as [Wa Wr]. specialize (IH Wr).
    destruct (Link.href link) as [[|c url]|] eqn:E.
    + destruct (IH w) as (os & w' & T). exists (Skipped :: os), w'.
      eapply transfers_skip; eauto.
    + destruct (downloadFile (String c url) (attachment_path tempDir a) w)
        as [[[]|message|message] w1] eqn:D.
      * destruct (IH w1) as (os & w' & T). exists (Downloaded :: os), w'.
        eapply transfers_done; eauto.
      * destruct (IH w1) as (os & w' & T). exists (Failed message :: os), w'.
        eapply transfers_failed; eauto.
      * pose proof (downloadFile_dies (String c url) (attachment_path tempDir a) w message)
          as K. rewrite D in K. specialize (K eq_refl). congruence.
    + destruct (IH w) as (os & w' & T). exists (Skipped :: os), w'.
      eapply transfers_skip; eauto.
Qed.

(** The loop records one entry per attachment, in collection order, and
    one file per completed transfer. *)
Lemma download_each_ledger (tempDir : string) (elements : list Attachment.t)
    (w : World.t R) (os : list outcome) (w' : World.t R) :
  transfers tempDir elements w os w' →
  ∀ downloadResults downloadedFiles,
    download_each tempDir elements downloadResults downloadedFiles w
    = (Return (downloadResults ++ entries_of elements os,
               downloadedFiles ++ files_of tempDir elements os), w').
Proof.
  induction 1 as [w | a rest link w os w' L E _ IH
                 | a rest link c url w w1 os w' L E D _ IH
                 | a rest link c url message w w1 os w' L E D _ IH];
    intros downloadResults downloadedFiles.
  - simpl. unfold ret. rewrite !List.app_nil_r. reflexivity.
  - rewrite (download_each_skips _ _ _ _ _ _ L E), IH.
    simpl. rewrite <- !app_assoc. reflexivity.
  - simpl. unfold staticDownloadLocation_href, bind, try_catch. rewrite L, E.
    unfold ret at 1. rewrite D. unfold ret at 1. simpl. rewrite IH.
    rewrite <- !app_assoc. reflexivity.
  - simpl. unfold staticDownloadLocation_href, bind, try_catch. rewrite L, E.
    unfold ret at 1. rewrite D. unfold ret at 1. simpl. rewrite IH.
    rewrite <- !app_assoc. reflexivity.
Qed.

(** The response of a run of the tool whose loop has run to its end. *)
Lemma download_gives_ledger (workPackageId : Z) (w0 w1 w' : World.t R)
    (attachments : AttachmentCollectionResponse.t) (os : list outcome) :
  callOpenProjectAPI (T := AttachmentCollectionResponse.t)
    ("/work_packages/" +:+ Str.of_Z workPackageId +:+ "/attachments") "GET" JUndefined w0
  = (Return attachments, w1) →
  AttachmentCollectionResponse.total attachments ≠ 0 →
  transfers (scratch_directory workPackageId)
    (AttachmentCollectionResponse.elements attachments)
    (with_directory (scratch_directory workPackageId) w1) os w' →
  length (entries_of (AttachmentCollectionResponse.elements attachments) os)
  = length (AttachmentCollectionResponse.elements attachments)
  ∧ download_work_package_attachments workPackageId w0
    = (Return (ToolResult.mk
                 ("Download results for work package #" +:+ Str.of_Z workPackageId +:+ ":"
                  +:+ Str.nl
                  +:+ Str.join Str.nl
                        (entries_of (AttachmentCollectionResponse.elements attachments) os)
                  +:+ Str.nl +:+ Str.nl +:+ "Files saved to: "
                  +:+ scratch_directory workPackageId
                  +:+ Str.nl +:+ Str.nl +:+ "File mapping:" +:+ Str.nl
                  +:+ JS.stringify_pretty
                        (fileMapping
                           (files_of (scratch_directory workPackageId)
                              (AttachmentCollectionResponse.elements attachments) os)))
                 None), w').
Proof.
  intros E N T. split.
  { pose proof (transfers_length _ _ _ _ _ T) as Len. clear T.
    revert os Len.
    induction (AttachmentCollectionResponse.elements attachments) as [|a l IH];
      intros [|o os] Len; simpl in *; try congruence.
    f_equal. apply IH. congruence. }
  unfold download_work_package_attachments, try_catch, bind.
  rewrite E. apply Z.eqb_neq in N. rewrite N.
  unfold existsSync, mkdirSync, ret at 1.
  unfold with_directory in T.
  destruct (bool_decide _); simpl;
    rewrite (download_each_ledger _ _ _ _ _ T [] []); reflexivity.
Qed.

(** X19.  Partial failure is aggregated when every attachment carries
    the link and the host lets every destination be opened: the loop runs
    to its end, whatever the remote system answers to the transfers, and
    the tool returns a success-level response whose ledger has one entry
    per attachment, in collection order, the failed transfers among them,
    and whose file mapping lists the completed ones. *)
Theorem download_aggregates (workPackageId : Z) (w0 w1 : World.t R)
    (attachments : AttachmentCollectionResponse.t) :
  callOpenProjectAPI (T := AttachmentCollectionResponse.t)
    ("/work_packages/" +:+ Str.of_Z workPackageId +:+ "/attachments") "GET" JUndefined w0
  = (Return attachments, w1) →
  AttachmentCollectionResponse.total attachments ≠ 0 →
  Forall has_download_link (AttachmentCollectionResponse.elements attachments) →
  Forall (fun a => write_error (attachment_path (scratch_directory workPackageId) a) = None)
    (AttachmentCollectionResponse.elements attachments) →
  ∃ os w',
    transfers (scratch_directory workPackageId)
      (AttachmentCollectionResponse.elements attachments)
      (with_directory (scratch_directory workPackageId) w1) os w'
    ∧ length (entries_of (AttachmentCollectionResponse.elements attachments) os)
      = length (AttachmentCollectionResponse.elements attachments)
    ∧ download_work_package_attachments workPackageId w0
      = (Return (ToolResult.mk
                   ("Download results for work package #" +:+ Str.of_Z workPackageId +:+ ":"
                    +:+ Str.nl
                    +:+ Str.join Str.nl
                          (entries_of (AttachmentCollectionResponse.elements attachments) os)
                    +:+ Str.nl +:+ Str.nl +:+ "Files saved to: "
                    +:+ scratch_directory workPackageId
                    +:+ Str.nl +:+ Str.nl +:+ "File mapping:" +:+ Str.nl
                    +:+ JS.stringify_pretty
                          (fileMapping
                             (files_of (scratch_directory workPackageId)
                                (AttachmentCollectionResponse.elements attachments) os)))
                   None), w').
Proof.
  intros E N L Wr.
  destruct (transfers_total _ _ L Wr (with_directory (scratch_directory workPackageId) w1))
    as (os & w' & T).
  exists os, w'. split; [exact T|].
  apply (download_gives_ledger _ _ _ _ _ _ E N T).
Qed.



(** *** The boundary of the tools *)

Lemma dies_bind {A B} (P : string → Prop) (m : M R A) (k : A → M R B) :
  dies_within P m → (∀ a, dies_within P (k a)) → dies_within P (bind m k).
Proof.
  intros Hm Hk w e. unfold bind. specialize (Hm w).
  destruct (m w) as [[a|x|x] w1]; simpl in *; [apply Hk|discriminate|].
  intros [= <-]. apply Hm. reflexivity.
Qed.

Lemma dies_try_catch {A} (P : string → Prop) (m : M R A) (h : string → M R A) :
  dies_within P m → (∀ x, dies_within P (h x)) → dies_within P (try_catch m h).
Proof.
  intros Hm Hh w e. unfold try_catch. specialize (Hm w).
  destruct (m w) as [[a|x|x] w1]; simpl in *; [discriminate|apply Hh|].
  intros [= <-]. apply Hm. reflexivity.
Qed.

Lemma dies_never {A} (P : string → Prop) (m : M R A) :
  (∀ w e, fst (m w) ≠ Dies e) → dies_within P m.
Proof. intros N w e D. destruct (N w e D). Qed.

Lemma dies_callOpenProjectAPI {T} `{FromJSON T} (P : string → Prop)
    (endpoint method : string) (body : jsval) :
  dies_within P (callOpenProjectAPI (T := T) endpoint method body).
Proof. apply dies_never. intros w e. apply callOpenProjectAPI_lives. Qed.

Lemma dies_download_each (tempDir : string) (elements : list Attachment.t) :
  ∀ downloadResults downloadedFiles,
    dies_within (fun e => ∃ path, write_error path = Some e)
      (download_each tempDir elements downloadResults downloadedFiles).
Proof.
  induction elements as [|a rest IH]; intros downloadResults downloadedFiles; simpl.
  - apply dies_never. discriminate.
  - apply dies_bind.
    + apply dies_never. intros w e. unfold staticDownloadLocation_href.
      destruct (Links.get _ _); discriminate.
    + intros [[|c url]|]; [apply IH| |apply IH].
      apply dies_bind; [|intros pushed; apply IH].
      apply dies_try_catch; [|intros x; apply dies_never; discriminate].
      apply dies_bind; [|intros _; apply dies_never; discriminate].
      intros w e D. eexists. apply (downloadFile_dies _ _ _ _ D).
Qed.

(** A tool body wrapped in the catch-all of the tools gives a response,
    unless the body ends the process. *)
Lemma caught_responds (P : string → Prop) (body : M R ToolResult.t)
    (h : string → ToolResult.t) (w : World.t R) :
  dies_within P body →
  (∃ r, fst (try_catch body (fun message => ret (h message)) w) = Return r)
  ∨ (∃ e, fst (try_catch body (fun message => ret (h message)) w) = Dies e ∧ P e).
Proof.
  intros D. specialize (D w). unfold try_catch.
  destruct (body w) as [[r|x|x] w']; simpl in *; eauto.
Qed.

(** X21.  Whatever the remote system does, [get_work_package_detail] and
    [change_work_package_status] hand a response to the host.  So does
    [download_work_package_attachments], unless the host refuses to open
    the destination of a transfer: then the write stream fails with no
    listener and the process ends, with that error, without a response.
    No tool lets an exception escape. *)
Theorem tools_always_respond (workPackageId : Z) (status : string) (w : World.t R) :
  (∃ r, fst (get_work_package_detail workPackageId w) = Return r)
  ∧ (∃ r, fst (change_work_package_status workPackageId status w) = Return r)
  ∧ ((∃ r, fst (download_work_package_attachments workPackageId w) = Return r)
     ∨ (∃ e path, fst (download_work_package_attachments workPackageId w) = Dies e
                  ∧ write_error path = Some e)).
Proof.
  split; [|split].
  - unfold get_work_package_detail.
    match goal with |- ∃ r, fst (try_catch ?b (fun m => ret (@?h m)) w) = _ =>
      destruct (caught_responds (fun _ => False) b h w) as [K|(e & _ & [])]; [|exact K] end.
    apply dies_bind; [apply dies_callOpenProjectAPI|]. intros data.
    apply dies_bind; [apply dies_callOpenProjectAPI|]. intros statuses.
    apply dies_never. discriminate.
  - unfold change_work_package_status.
    match goal with |- ∃ r, fst (try_catch ?b (fun m => ret (@?h m)) w) = _ =>
      destruct (caught_responds (fun _ => False) b h w) as [K|(e & _ & [])]; [|exact K] end.
    apply dies_bind; [apply dies_callOpenProjectAPI|]. intros workPackage.
    apply dies_bind; [apply dies_callOpenProjectAPI|]. intros statuses.
    destruct (List.find _ _); [|apply dies_never; discriminate].
    apply dies_bind; [apply dies_callOpenProjectAPI|]. intros updated.
    apply dies_never. discriminate.
  - unfold download_work_package_attachments.
    match goal with
    | |- (∃ r, fst (try_catch ?b (fun m => ret (@?h m)) w) = _) ∨ _ =>
      destruct (caught_responds (fun e => ∃ path, write_error path = Some e) b h w)
        as [K|(e & K & path & Wr)]; [|left; exact K|right; eauto] end.
    apply dies_bind; [apply dies_callOpenProjectAPI|]. intros attachments.
    destruct (_ =? 0); [apply dies_never; discriminate|].
    apply dies_bind; [apply dies_never; discriminate|]. intros present.
    apply dies_bind.
    { destruct (negb present); apply dies_never; discriminate. }
    intros _. apply dies_bind; [apply dies_download_each|].
    intros [downloadResults downloadedFiles]. apply dies_never. discriminate.
Qed.

(** *** The credential *)

Lemma sends_nothing {A} (m : M R A) :
  (∀ w, World.sent (snd (m w)) = World.sent w) → sends_authorized m.
Proof.
  intros E w. exists []. rewrite E, List.app_nil_r. split; [reflexivity|constructor].
Qed.

Lemma sends_ret {A} (a : A) : sends_authorized (ret (R := R) a).
Proof. apply sends_nothing. reflexivity. Qed.

Lemma sends_throw {A} (e : string) : sends_authorized (throw (R := R) (A := A) e).
Proof. apply sends_nothing. reflexivity. Qed.

Lemma sends_bind {A B} (m : M R A) (k : A → M R B) :
  sends_authorized m → (∀ a, sends_authorized (k a)) → sends_authorized (bind m k).
Proof.
  intros Hm Hk w. unfold bind.
  destruct (Hm w) as (l1 & E1 & F1).
  destruct (m w) as [[a|e|e] w1]; simpl in *.
  - destruct (Hk a w1) as (l2 & E2 & F2).
    exists (l1 ++ l2). rewrite E2, E1, <- app_assoc. split; [reflexivity|].
    apply Forall_app. auto.
  - exists l1. auto.
  - exists l1. auto.
Qed.

Lemma sends_try_catch {A} (m : M R A) (h : string → M R A) :
  sends_authorized m → (∀ e, sends_authorized (h e)) → sends_authorized (try_catch m h).
Proof.
  intros Hm Hh w. unfold try_catch.
  destruct (Hm w) as (l1 & E1 & F1).
  destruct (m w) as [[a|e|e] w1]; simpl in *.
  - exists l1. auto.
  - destruct (Hh e w1) as (l2 & E2 & F2).
    exists (l1 ++ l2). rewrite E2, E1, <- app_assoc. split; [reflexivity|].
    apply Forall_app. auto.
  - exists l1. auto.
Qed.

Lemma sends_do_fetch (req : Request.t) :
  authorized req → sends_authorized (do_fetch req).
Proof.
  intros A w. exists [req]. unfold do_fetch.
  destruct (fetch req (World.remote w)) as [[e|response] r']; simpl;
    (split; [reflexivity | repeat constructor; exact A]).
Qed.

Create HintDb sends.
#[local] Hint Resolve sends_ret sends_throw sends_bind sends_try_catch sends_do_fetch : sends.

Lemma api_request_authorized (endpoint method : string) (body : jsval) :
  authorized (api_request endpoint method body).
Proof. reflexivity. Qed.

Lemma download_request_authorized (endpoint : string) :
  authorized (download_request endpoint).
Proof. reflexivity. Qed.

Lemma sends_callOpenProjectAPI {T} `{FromJSON T} (endpoint method : string) (body : jsval) :
  sends_authorized (callOpenProjectAPI (T := T) endpoint method body).
Proof.
  unfold callOpenProjectAPI. apply sends_bind.
  - apply sends_do_fetch, api_request_authorized.
  - intros response. unfold read_text.
    destruct (negb _), (Response.bodyError response);
      (apply sends_bind; [auto with sends|]); intros responseText;
      try destruct (from_json _); auto with sends.
Qed.

Lemma sends_downloadFile (endpoint filePath : string) :
  sends_authorized (downloadFile endpoint filePath).
Proof.
  unfold downloadFile. apply sends_bind.
  - apply sends_do_fetch, download_request_authorized.
  - intros response. destruct (negb _); [auto with sends|].
    apply sends_bind.
    { apply sends_nothing. intros w. unfold write_file.
      destruct (write_error filePath); reflexivity. }
    intros _. destruct (Response.bodyError response); auto with sends.
Qed.

Lemma sends_download_each (tempDir : string) (elements : list Attachment.t) :
  ∀ downloadResults downloadedFiles,
    sends_authorized (download_each tempDir elements downloadResults downloadedFiles).
Proof.
  induction elements as [|attachment rest IH]; intros downloadResults downloadedFiles; simpl.
  - auto with sends.
  - apply sends_bind.
    + unfold staticDownloadLocation_href. destruct (Links.get _ _); auto with sends.
    + intros [[|c url]|]; [apply IH| |apply IH].
      apply sends_bind; [|intros pushed; apply IH].
      apply sends_try_catch; [|auto with sends].
      apply sends_bind; [apply sends_downloadFile|auto with sends].
Qed.

#[local] Hint Resolve sends_callOpenProjectAPI sends_downloadFile sends_download_each : sends.

(** C8.  Whatever the configured key, every request that the three tools
    send carries the header [Authorization] with the value ["Basic "]
    followed by the base64 text of ["apikey:"] followed by the key; so does
    the request of the Go variant. *)
Theorem authorization_header :
  (∀ workPackageId (w : World.t R),
     ∃ l, World.sent (snd (get_work_package_detail workPackageId w)) = World.sent w ++ l
          ∧ Forall (fun req =>
                      Request.header "Authorization" req
                      = Some ("Basic " +:+ Base64.encode ("apikey:" +:+ apiKey))) l)
  ∧ (∀ workPackageId status (w : World.t R),
       ∃ l, World.sent (snd (change_work_package_status workPackageId status w))
            = World.sent w ++ l
            ∧ Forall (fun req =>
                        Request.header "Authorization" req
                        = Some ("Basic " +:+ Base64.encode ("apikey:" +:+ apiKey))) l)
  ∧ (∀ workPackageId (w : World.t R),
       ∃ l, World.sent (snd (download_work_package_attachments workPackageId w))
            = World.sent w ++ l
            ∧ Forall (fun req =>
                        Request.header "Authorization" req
                        = Some ("Basic " +:+ Base64.encode ("apikey:" +:+ apiKey))) l)
  ∧ (∀ key workPackageID,
       Request.header "Authorization" (Go.newRequest key workPackageID)
       = Some ("Basic " +:+ Base64.encode ("apikey:" +:+ key))).
Proof.
  split; [|split; [|split]].
  - intros workPackageId.
    change (sends_authorized (get_work_package_detail workPackageId)).
    unfold get_work_package_detail. auto 6 with sends.
  - intros workPackageId status.
    change (sends_authorized (change_work_package_status workPackageId status)).
    unfold change_work_package_status.
    apply sends_try_catch; [|auto with sends].
    apply sends_bind; [auto with sends|]. intros workPackage.
    apply sends_bind; [auto with sends|]. intros statuses.
    destruct (List.find _ _); auto with sends.
  - intros workPackageId.
    change (sends_authorized (download_work_package_attachments workPackageId)).
    unfold download_work_package_attachments.
    apply sends_try_catch; [|auto with sends].
    apply sends_bind; [auto with sends|]. intros attachments.
    destruct (_ =? 0); [auto with sends|].
    apply sends_bind; [apply sends_nothing; reflexivity|]. intros present.
    apply sends_bind.
    { destruct (negb present); [apply sends_nothing; reflexivity|auto with sends]. }
    intros _. apply sends_bind; [auto with sends|].
    intros [downloadResults downloadedFiles]. auto with sends.
  - reflexivity.
Qed.

End Properties.

(* ================================================================== *)
(** ** Further properties of the server and of its variants *)

(** X1.  The TypeScript server never serves with an empty key; when it
    serves, [--help] was not given, the key is the one of the command line
    unless that is absent or empty, in which case it is the one of the
    environment, and the address is chosen the same way, with the built-in
    address last. *)
Theorem startup_serves_with_key (args : Startup.Args) (env : Startup.Env)
    (config : Config) :
  Startup.startup args env = Startup.Serve config →
  apiKey (Config := config) ≠ ""
  ∧ Startup.help args ≠ Some true
  ∧ apiKey (Config := config)
    = match Startup.api_key args with
      | Some (String c k) => String c k
      | _ => default "" (Startup.OPENPROJECT_API_KEY env)
      end
  ∧ apiBaseUrl (Config := config)
    = match Startup.api_url args, Startup.OPENPROJECT_API_URL env with
      | Some (String c u), _ => String c u
      | _, Some (String c u) => String c u
      | _, _ => "https://project.mywelly.vn"
      end.
Proof.
  unfold Startup.startup.
  destruct (Startup.help args) as [[|]|]; simpl; try discriminate;
    destruct (Str.is_empty _) eqn:E; try discriminate;
    intros [= <-]; simpl in *;
    (split; [intros K; rewrite K in E; discriminate|]);
    (split; [discriminate|]);
    (split;
     [ destruct (Startup.api_key args) as [[|c k]|];
       destruct (Startup.OPENPROJECT_API_KEY env) as [[|c' k']|]; reflexivity
     | destruct (Startup.api_url args) as [[|c k]|];
       destruct (Startup.OPENPROJECT_API_URL env) as [[|c' k']|]; reflexivity ]).
Qed.

(** X2.  The Go server resolves its key to the flag unless that is empty,
    then to the environment, and panics rather than run with an empty
    key. *)
Theorem resolve_key_nonempty (flag env key : string) :
  GoTool.resolve_key flag env = Some key →
  key ≠ "" ∧ key = (if Str.is_empty flag then env else flag).
Proof.
  unfold GoTool.resolve_key.
  destruct flag as [|c f]; simpl.
  - destruct env; simpl; intros [= <-]; split; [discriminate|reflexivity].
  - intros [= <-]. split; [discriminate|reflexivity].
Qed.

Section Coverage.

Context `{Host} `{Config} {R : Type} `{Remote R}.
Context `{FromJSON WorkPackage.t} `{FromJSON AvailableStatusesResponse.t}.
Context `{FromJSON AttachmentCollectionResponse.t} `{FromJSON ErrorResponse.t}.

(** *** The client *)

(** X3.  One call of the client is one request: whether [fetch] rejects,
    the status is an error, the body is malformed or the call returns,
    exactly the request of the call is added to the log, and no directory
    or file is touched.  Nothing is retried. *)
Theorem callOpenProjectAPI_single_request {T} `{FromJSON T} (endpoint method : string)
    (body : jsval) (w : World.t R) :
  World.sent (snd (callOpenProjectAPI (T := T) endpoint method body w))
  = World.sent w ++ [api_request endpoint method body]
  ∧ World.dirs (snd (callOpenProjectAPI (T := T) endpoint method body w)) = World.dirs w
  ∧ World.files (snd (callOpenProjectAPI (T := T) endpoint method body w)) = World.files w
  ∧ World.remote (snd (callOpenProjectAPI (T := T) endpoint method body w))
    = snd (fetch (api_request endpoint method body) (World.remote w)).
Proof. rewrite callOpenProjectAPI_world. simpl. auto. Qed.

Lemma only_nothing {A} (P : Request.t → Prop) (m : M R A) :
  (∀ w, World.sent (snd (m w)) = World.sent w) → sends_only P m.
Proof.
  intros E w. exists []. rewrite E, List.app_nil_r. split; [reflexivity|constructor].
Qed.

Lemma only_bind {A B} (P : Request.t → Prop) (m : M R A) (k : A → M R B) :
  sends_only P m → (∀ a, sends_only P (k a)) → sends_only P (bind m k).
Proof.
  intros Hm Hk w. unfold bind.
  destruct (Hm w) as (l1 & E1 & F1).
  destruct (m w) as [[a|e|e] w1]; simpl in *.
  - destruct (Hk a w1) as (l2 & E2 & F2).
    exists (l1 ++ l2). rewrite E2, E1, <- app_assoc. split; [reflexivity|].
    apply Forall_app. auto.
  - exists l1. auto.
  - exists l1. auto.
Qed.

Lemma only_try_catch {A} (P : Request.t → Prop) (m : M R A) (h : string → M R A) :
  sends_only P m → (∀ e, sends_only P (h e)) → sends_only P (try_catch m h).
Proof.
  intros Hm Hh w. unfold try_catch.
  destruct (Hm w) as (l1 & E1 & F1).
  destruct (m w) as [[a|e|e] w1]; simpl in *.
  - exists l1. auto.
  - destruct (Hh e w1) as (l2 & E2 & F2).
    exists (l1 ++ l2). rewrite E2, E1, <- app_assoc. split; [reflexivity|].
    apply Forall_app. auto.
  - exists l1. auto.
Qed.

Lemma only_callOpenProjectAPI {T} `{FromJSON T} (P : Request.t → Prop)
    (endpoint method : string) (body : jsval) :
  P (api_request endpoint method body) →
  sends_only P (callOpenProjectAPI (T := T) endpoint method body).
Proof.
  intros K w. exists [api_request endpoint method body].
  rewrite callOpenProjectAPI_world. simpl. split; [reflexivity|repeat constructor; exact K].
Qed.

Lemma only_downloadFile (P : Request.t → Prop) (endpoint filePath : string) :
  P (download_request endpoint) → sends_only P (downloadFile endpoint filePath).
Proof.
  intros K w. exists [download_request endpoint].
  split; [apply downloadFile_log|repeat constructor; exact K].
Qed.

Lemma only_download_each (P : Request.t → Prop) (tempDir : string)
    (elements : list Attachment.t) :
  (∀ endpoint, P (download_request endpoint)) →
  ∀ downloadResults downloadedFiles,
    sends_only P (download_each tempDir elements downloadResults downloadedFiles).
Proof.
  intros K.
  induction elements as [|attachment rest IH]; intros downloadResults downloadedFiles; simpl.
  - apply only_nothing. reflexivity.
  - apply only_bind.
    + unfold staticDownloadLocation_href.
      destruct (Links.get _ _); apply only_nothing; reflexivity.
    + intros [[|c url]|]; [apply IH| |apply IH].
      apply only_bind; [|intros pushed; apply IH].
      apply only_try_catch; [|intros e; apply only_nothing; reflexivity].
      apply only_bind; [apply only_downloadFile, K|].
      intros _. apply only_nothing. reflexivity.
Qed.

(** X4.  The tools that read only read: every request sent by
    [get_work_package_detail] and by [download_work_package_attachments],
    the transfers included, is a GET without a body. *)
Theorem read_tools_only_read (workPackageId : Z) (w : World.t R) :
  (∃ l, World.sent (snd (get_work_package_detail workPackageId w)) = World.sent w ++ l
        ∧ Forall (fun req => Request.method req = "GET" ∧ Request.body req = None) l)
  ∧ (∃ l, World.sent (snd (download_work_package_attachments workPackageId w))
          = World.sent w ++ l
          ∧ Forall (fun req => Request.method req = "GET" ∧ Request.body req = None) l).
Proof.
  split.
  - refine ((_ : sends_only reads (get_work_package_detail workPackageId)) w).
    clear w. unfold get_work_package_detail.
    apply only_try_catch; [|intros e; apply only_nothing; reflexivity].
    apply only_bind; [apply only_callOpenProjectAPI; split; reflexivity|]. intros data.
    apply only_bind; [apply only_callOpenProjectAPI; split; reflexivity|]. intros statuses.
    apply only_nothing. reflexivity.
  - refine ((_ : sends_only reads (download_work_package_attachments workPackageId)) w).
    clear w. unfold download_work_package_attachments.
    apply only_try_catch; [|intros e; apply only_nothing; reflexivity].
    apply only_bind; [apply only_callOpenProjectAPI; split; reflexivity|].
    intros attachments.
    destruct (_ =? 0); [apply only_nothing; reflexivity|].
    apply only_bind; [apply only_nothing; reflexivity|]. intros present.
    apply only_bind.
    { destruct (negb present); apply only_nothing; reflexivity. }
    intros _. apply only_bind.
    { apply only_download_each. intros endpoint. split; reflexivity. }
    intros [downloadResults downloadedFiles]. apply only_nothing. reflexivity.
Qed.

(** *** Reading a work package *)

(** X5.  When the fetch of the work package fails, be it a rejected
    exchange, an error status or a malformed body,
    [get_work_package_detail] returns a failure whose text names the work
    package and carries the cause, and it does not ask for the catalog:
    one request has been sent. *)
Theorem get_work_package_detail_failure (workPackageId : Z) (w0 w1 : World.t R)
    (cause : string) :
  callOpenProjectAPI (T := WorkPackage.t)
    ("/work_packages/" +:+ Str.of_Z workPackageId) "GET" JUndefined w0
  = (Throw cause, w1) →
  get_work_package_detail workPackageId w0
  = (Return (ToolResult.mk
               ("Error retrieving work package #" +:+ Str.of_Z workPackageId
                +:+ ": " +:+ cause) (Some true)), w1)
  ∧ World.sent w1
    = World.sent w0
      ++ [api_request ("/work_packages/" +:+ Str.of_Z workPackageId) "GET" JUndefined].
Proof.
  intros E. split.
  - unfold get_work_package_detail, try_catch, bind. rewrite E. reflexivity.
  - pose proof (callOpenProjectAPI_world (T := WorkPackage.t)
                  ("/work_packages/" +:+ Str.of_Z workPackageId) "GET" JUndefined w0) as W.
    rewrite E in W. simpl in W. subst w1. reflexivity.
Qed.

(** *** Changing the status *)

(** X6.  Whatever the remote system answers, the requests of
    [change_work_package_status] are decided by what it received: the
    fetch of the work package alone when that fetch fails; the two fetches
    when the fetch of the catalog fails or the catalog holds no matching
    name; and otherwise the two fetches followed by one PATCH, which
    carries the lock version of the work package that was fetched and the
    link of the status that the search found in the catalog that was
    fetched.  It never sends a fourth request. *)
Theorem change_status_request_log (workPackageId : Z) (status : string) (w : World.t R) :
  ∃ l, World.sent (snd (change_work_package_status workPackageId status w))
       = World.sent w ++ l
       ∧ ((∃ cause,
             fst (callOpenProjectAPI (T := WorkPackage.t)
                    ("/work_packages/" +:+ Str.of_Z workPackageId) "GET" JUndefined w)
             = Throw cause
             ∧ l = [api_request ("/work_packages/" +:+ Str.of_Z workPackageId)
                      "GET" JUndefined])
          ∨ (∃ workPackage w1 cause,
               callOpenProjectAPI (T := WorkPackage.t)
                 ("/work_packages/" +:+ Str.of_Z workPackageId) "GET" JUndefined w
               = (Return workPackage, w1)
               ∧ fst (callOpenProjectAPI (T := AvailableStatusesResponse.t)
                        "/statuses" "GET" JUndefined w1)
                 = Throw cause
               ∧ l = [api_request ("/work_packages/" +:+ Str.of_Z workPackageId)
                        "GET" JUndefined;
                      api_request "/statuses" "GET" JUndefined])
          ∨ (∃ workPackage w1 statuses w2,
               callOpenProjectAPI (T := WorkPackage.t)
                 ("/work_packages/" +:+ Str.of_Z workPackageId) "GET" JUndefined w
               = (Return workPackage, w1)
               ∧ callOpenProjectAPI (T := AvailableStatusesResponse.t)
                   "/statuses" "GET" JUndefined w1
                 = (Return statuses, w2)
               ∧ match List.find (status_matches status)
                         (AvailableStatusesResponse.elements statuses) with
                 | None =>
                     l = [api_request ("/work_packages/" +:+ Str.of_Z workPackageId)
                            "GET" JUndefined;
                          api_request "/statuses" "GET" JUndefined]
                 | Some targetStatus =>
                     In targetStatus (AvailableStatusesResponse.elements statuses)
                     ∧ l = [api_request ("/work_packages/" +:+ Str.of_Z workPackageId)
                              "GET" JUndefined;
                            api_request "/statuses" "GET" JUndefined;
                            api_request ("/work_packages/" +:+ Str.of_Z workPackageId)
                              "PATCH" (updatePayload workPackage targetStatus)]
                 end)).
Proof.
  unfold change_work_package_status, try_catch, bind.
  pose proof (callOpenProjectAPI_world (T := WorkPackage.t)
                ("/work_packages/" +:+ Str.of_Z workPackageId) "GET" JUndefined w) as W1.
  pose proof (callOpenProjectAPI_lives (T := WorkPackage.t)
                ("/work_packages/" +:+ Str.of_Z workPackageId) "GET" JUndefined w) as L1.
  destruct (callOpenProjectAPI _ _ _ w) as [[workPackage|e1|e1] w1]; simpl in W1.
  3:{ destruct (L1 e1 eq_refl). }
  2:{ subst w1. eexists. split; [reflexivity|]. left. eauto. }
  pose proof (callOpenProjectAPI_world (T := AvailableStatusesResponse.t)
                "/statuses" "GET" JUndefined w1) as W2.
  pose proof (callOpenProjectAPI_lives (T := AvailableStatusesResponse.t)
                "/statuses" "GET" JUndefined w1) as L2.
  destruct (callOpenProjectAPI (T := AvailableStatusesResponse.t)
              "/statuses" "GET" JUndefined w1) as [[statuses|e2|e2] w2] eqn:E2;
    simpl in W2.
  3:{ destruct (L2 e2 eq_refl). }
  2:{ eexists. split.
      - simpl. rewrite W2, W1. simpl. rewrite <- app_assoc. reflexivity.
      - right. left. exists workPackage, w1, e2. rewrite E2. auto. }
  destruct (List.find _ _) as [targetStatus|] eqn:F.
  2:{ eexists. split.
      - simpl. rewrite W2, W1. simpl. rewrite <- app_assoc. reflexivity.
      - right. right. exists workPackage, w1, statuses, w2.
        rewrite F. auto. }
  pose proof (find_some _ _ F) as [I _].
  match goal with |- context [callOpenProjectAPI ?e "PATCH" ?b w2] =>
    pose proof (callOpenProjectAPI_world (T := WorkPackage.t) e "PATCH" b w2) as W3;
    destruct (callOpenProjectAPI (T := WorkPackage.t) e "PATCH" b w2)
      as [[updated|e3|e3] w3]
  end; simpl in W3;
    (eexists; split;
     [simpl; rewrite W3, W2, W1; simpl; rewrite <- !app_assoc; reflexivity|]);
    right; right; exists workPackage, w1, statuses, w2; rewrite F; auto.
Qed.

(** X7.  When several names of the catalog equal the requested name up to
    case, the update targets the first of them in catalog order. *)
Theorem change_status_first_match (workPackageId : Z) (status : string)
    (w0 w1 w2 : World.t R) (workPackage : WorkPackage.t)
    (statuses : AvailableStatusesResponse.t)
    (before after : list Status.t) (targetStatus : Status.t) :
  callOpenProjectAPI (T := WorkPackage.t)
    ("/work_packages/" +:+ Str.of_Z workPackageId) "GET" JUndefined w0
  = (Return workPackage, w1) →
  callOpenProjectAPI (T := AvailableStatusesResponse.t) "/statuses" "GET" JUndefined w1
  = (Return statuses, w2) →
  AvailableStatusesResponse.elements statuses = before ++ targetStatus :: after →
  Forall (fun s => toLowerCase (Status.name s) ≠ toLowerCase status) before →
  toLowerCase (Status.name targetStatus) = toLowerCase status →
  World.sent (snd (change_work_package_status workPackageId status w0))
  = World.sent w2
    ++ [api_request ("/work_packages/" +:+ Str.of_Z workPackageId) "PATCH"
          (updatePayload workPackage targetStatus)].
Proof.
  intros E1 E2 S N M.
  assert (F : List.find (status_matches status)
                (AvailableStatusesResponse.elements statuses) = Some targetStatus).
  { rewrite S. clear S. induction before as [|s l IH]; simpl.
    - unfold status_matches at 1. rewrite M, String.eqb_refl. reflexivity.
    - apply Forall_cons in N as [Ns Nl].
      unfold status_matches at 1.
      destruct (String.eqb_spec (toLowerCase (Status.name s)) (toLowerCase status));
        [contradiction|]. apply IH, Nl. }
  unfold change_work_package_status, try_catch, bind.
  rewrite E1, E2, F.
  pose proof (callOpenProjectAPI_world (T := WorkPackage.t)
                ("/work_packages/" +:+ Str.of_Z workPackageId) "PATCH"
                (updatePayload workPackage targetStatus) w2) as W.
  destruct (callOpenProjectAPI _ _ _ w2) as [[updated|e|e] w3]; simpl in W; subst w3;
    reflexivity.
Qed.

(** X8.  When the remote system refuses the update, or its answer cannot
    be read, [change_work_package_status] returns a failure whose text
    names the work package and carries the cause; the update is not sent
    again. *)
Theorem change_status_update_rejected (workPackageId : Z) (status : string)
    (w0 w1 w2 w3 : World.t R) (workPackage : WorkPackage.t)
    (statuses : AvailableStatusesResponse.t) (targetStatus : Status.t) (cause : string) :
  callOpenProjectAPI (T := WorkPackage.t)
    ("/work_packages/" +:+ Str.of_Z workPackageId) "GET" JUndefined w0
  = (Return workPackage, w1) →
  callOpenProjectAPI (T := AvailableStatusesResponse.t) "/statuses" "GET" JUndefined w1
  = (Return statuses, w2) →
  List.find (status_matches status) (AvailableStatusesResponse.elements statuses)
  = Some targetStatus →
  callOpenProjectAPI (T := WorkPackage.t)
    ("/work_packages/" +:+ Str.of_Z workPackageId) "PATCH"
    (updatePayload workPackage targetStatus) w2
  = (Throw cause, w3) →
  change_work_package_status workPackageId status w0
  = (Return (ToolResult.mk
               ("Error updating work package #" +:+ Str.of_Z workPackageId
                +:+ " status: " +:+ cause) (Some true)), w3)
  ∧ World.sent w3
    = World.sent w2
      ++ [api_request ("/work_packages/" +:+ Str.of_Z workPackageId) "PATCH"
            (updatePayload workPackage targetStatus)].
Proof.
  intros E1 E2 F E3. split.
  - unfold change_work_package_status, try_catch, bind. rewrite E1, E2, F, E3. reflexivity.
  - pose proof (callOpenProjectAPI_world (T := WorkPackage.t)
                  ("/work_packages/" +:+ Str.of_Z workPackageId) "PATCH"
                  (updatePayload workPackage targetStatus) w2) as W.
    rewrite E3 in W. simpl in W. subst w3. reflexivity.
Qed.

(** *** The reducer, continued *)

(** X9.  A member that is present and neither empty nor zero reaches the
    projected record unchanged, and [id] and [lockVersion] are always
    copied. *)
Theorem formatWorkPackage_passes_values (workPackage : WorkPackage.t)
    (statuses : AvailableStatusesResponse.t) :
  let record := formatWorkPackage workPackage statuses in
  JS.get "id" record = Ident.to_js (WorkPackage.id workPackage)
  ∧ JS.get "lockVersion" record = JNumber (WorkPackage.lockVersion workPackage)
  ∧ (∀ d, WorkPackage.description workPackage = Some d → FormattedText.raw d ≠ "" →
          JS.get "description" record = JString (FormattedText.raw d))
  ∧ (∀ s, WorkPackage.startDate workPackage = Some s → s ≠ "" →
          JS.get "startDate" record = JString s)
  ∧ (∀ s, WorkPackage.dueDate workPackage = Some s → s ≠ "" →
          JS.get "dueDate" record = JString s)
  ∧ (∀ s, WorkPackage.estimatedTime workPackage = Some s → s ≠ "" →
          JS.get "estimatedTime" record = JString s)
  ∧ (∀ n, WorkPackage.percentageDone workPackage = Some n → n ≠ 0 →
          JS.get "percentageDone" record = JNumber n)
  ∧ (∀ e s, WorkPackage._embedded workPackage = Some e →
            WorkPackageEmbedded.status e = Some s → Status.name s ≠ "" →
            JS.get "status" record = JString (Status.name s))
  ∧ (∀ e a, WorkPackage._embedded workPackage = Some e →
            WorkPackageEmbedded.assignee e = Some a → NamedResource.name a ≠ "" →
            JS.get "assignee" record = JString (NamedResource.name a)).
Proof.
  assert (S : ∀ s d, s ≠ "" → JS.or (JString s) d = JString s).
  { intros [|c s] d N; [contradiction|reflexivity]. }
  simpl. split; [reflexivity|]. split; [reflexivity|].
  split. { intros d E N. rewrite E. simpl. apply S, N. }
  split. { intros s E N. rewrite E. simpl. apply S, N. }
  split. { intros s E N. rewrite E. simpl. apply S, N. }
  split. { intros s E N. rewrite E. simpl. apply S, N. }
  split. { intros n E N. rewrite E. simpl. unfold JS.or. simpl.
           apply Z.eqb_neq in N. rewrite N. reflexivity. }
  split. { intros e s E1 E2 N. rewrite E1. simpl. rewrite E2. simpl. apply S, N. }
  intros e a E1 E2 N. unfold embedded_name. rewrite E1. simpl. rewrite E2. simpl.
  apply S, N.
Qed.

(** *** Transfers *)

(** X10.  A transfer that is answered with a status outside 200-299
    throws an error that carries the status code and its text, and writes
    no file. *)
Theorem downloadFile_refused (endpoint filePath : string) (w : World.t R)
    (response : Response.t) (remote' : R) :
  fetch (download_request endpoint) (World.remote w) = (Resolved response, remote') →
  Response.ok response = false →
  downloadFile endpoint filePath w
  = (Throw ("Failed to download file: " +:+ Str.of_Z (Response.status response)
            +:+ " " +:+ Response.statusText response),
     World.mk remote' (World.sent w ++ [download_request endpoint])
       (World.dirs w) (World.files w)).
Proof.
  intros F K. unfold downloadFile, bind, do_fetch. rewrite F. simpl. rewrite K. reflexivity.
Qed.

(** X11.  A transfer that is answered with a success status opens its
    destination first.  When the host opens it and the body arrives whole,
    the transfer returns, and then the file at the destination holds the
    body while every other file is as before; when the host opens it and
    the body stream breaks, the transfer throws the error of the stream;
    when the host refuses to open it, the process ends with the error of
    the host and no file is written. *)
Theorem downloadFile_stores_body (endpoint filePath : string) (w : World.t R)
    (response : Response.t) (remote' : R) :
  fetch (download_request endpoint) (World.remote w) = (Resolved response, remote') →
  Response.ok response = true →
  (write_error filePath = None → Response.bodyError response = None →
   fst (downloadFile endpoint filePath w) = Return tt
   ∧ World.files (snd (downloadFile endpoint filePath w)) !! filePath
     = Some (Response.text response)
   ∧ ∀ other, other ≠ filePath →
       World.files (snd (downloadFile endpoint filePath w)) !! other
       = World.files w !! other)
  ∧ (write_error filePath = None →
     ∀ message, Response.bodyError response = Some message →
       fst (downloadFile endpoint filePath w) = Throw message)
  ∧ (∀ failure, write_error filePath = Some failure →
       fst (downloadFile endpoint filePath w) = Dies failure
       ∧ World.files (snd (downloadFile endpoint filePath w)) = World.files w).
Proof.
  intros F K. unfold downloadFile, bind, do_fetch, write_file. rewrite F. simpl.
  rewrite K. simpl.
  split; [|split].
  - intros -> ->. simpl. split; [reflexivity|]. split.
    + apply lookup_insert_eq.
    + intros other N. apply lookup_insert_ne. congruence.
  - intros -> message ->. reflexivity.
  - intros failure ->. simpl. auto.
Qed.

(** X12.  The transfers of the loop are requested one after the other in
    collection order: the loop adds to the log the download request of
    every attachment that is not skipped, and nothing else; it creates no
    directory. *)
Theorem download_requests_in_order (tempDir : string) (elements : list Attachment.t)
    (w : World.t R) (os : list outcome) (w' : World.t R) :
  transfers tempDir elements w os w' →
  World.sent w' = World.sent w ++ requests_of elements os
  ∧ World.dirs w' = World.dirs w.
Proof.
  induction 1 as [w | a rest link w os w' L E _ IH
                 | a rest link c url w w1 os w' L E D _ IH
                 | a rest link c url message w w1 os w' L E D _ IH].
  - simpl. rewrite List.app_nil_r. auto.
  - simpl. exact IH.
  - destruct IH as [S Di].
    pose proof (downloadFile_log (String c url) (attachment_path tempDir a) w) as [S1 D1].
    rewrite D in S1, D1. simpl in S1, D1.
    assert (T : download_target a = String c url).
    { unfold download_target. rewrite L. simpl. rewrite E. reflexivity. }
    simpl. rewrite T, S, S1, Di, D1, <- app_assoc. auto.
  - destruct IH as [S Di].
    pose proof (downloadFile_log (String c url) (attachment_path tempDir a) w) as [S1 D1].
    rewrite D in S1, D1. simpl in S1, D1.
    assert (T : download_target a = String c url).
    { unfold download_target. rewrite L. simpl. rewrite E. reflexivity. }
    simpl. rewrite T, S, S1, Di, D1, <- app_assoc. auto.
Qed.


(** *** Scratch paths *)

Lemma append_assoc (a b c : string) : (a +:+ b) +:+ c = a +:+ b +:+ c.
Proof.
  induction a as [|x a IH]; [reflexivity|].
  change (String x ((a +:+ b) +:+ c) = String x (a +:+ b +:+ c)). rewrite IH. reflexivity.
Qed.

Lemma append_empty_r (a : string) : a +:+ "" = a.
Proof.
  induction a as [|x a IH]; [reflexivity|].
  change (String x (a +:+ "") = String x a). rewrite IH. reflexivity.
Qed.

Lemma append_cancel (a x y : string) : a +:+ x = a +:+ y → x = y.
Proof. induction a; simpl; [auto|]. intros [= E]. auto. Qed.

Lemma of_Z_inj (a b : Z) : Str.of_Z a = Str.of_Z b → a = b.
Proof.
  unfold Str.of_Z. intros E. apply DecimalZ.to_int_inj.
  assert (K : ∀ n, NilZero.int_of_string (NilZero.string_of_int (Z.to_int n))
                   = Some (Z.to_int n)).
  { intros n. apply NilZero.isi; destruct n; simpl; try discriminate;
      intros [= K]; revert K; apply DecimalPos.Unsigned.to_uint_nonnil. }
  pose proof (K a) as Ka. rewrite E, K in Ka. congruence.
Qed.

Lemma occurs_uint (c : ascii) (d : Decimal.uint) :
  (c = "." ∨ c = "/")%char → occurs c (NilEmpty.string_of_uint d) = false.
Proof. intros [-> | ->]; induction d; simpl; auto. Qed.

Lemma occurs_of_Z (c : ascii) (n : Z) :
  (c = "." ∨ c = "/")%char → occurs c (Str.of_Z n) = false.
Proof.
  intros C. unfold Str.of_Z.
  assert (U : ∀ d, occurs c (NilZero.string_of_uint d) = false).
  { intros d. destruct d; try apply (occurs_uint c _ C).
    destruct C as [-> | ->]; reflexivity. }
  destruct (Z.to_int n); simpl; [apply U|].
  rewrite U. destruct C as [-> | ->]; reflexivity.
Qed.

Lemma split_unique (c : ascii) (s1 : string) : ∀ s2 r1 r2,
  occurs c s1 = false → occurs c s2 = false →
  s1 +:+ String c r1 = s2 +:+ String c r2 → s1 = s2 ∧ r1 = r2.
Proof.
  induction s1 as [|a s1 IH]; intros [|b s2] r1 r2 O1 O2 E; simpl in *.
  - injection E as ->. auto.
  - injection E as -> _. rewrite Ascii.eqb_refl in O2. discriminate.
  - injection E as -> _. rewrite Ascii.eqb_refl in O1. discriminate.
  - injection E as -> E.
    apply orb_false_iff in O1 as [_ O1]. apply orb_false_iff in O2 as [_ O2].
    destruct (IH _ _ _ O1 O2 E) as [-> ->]. auto.
Qed.

Section PathFacts.

#[local] Arguments Ascii.eqb : simpl never.

Lemma split_nonempty (s : string) : Path.split s ≠ [].
Proof.
  destruct s as [|c s]; simpl; [discriminate|].
  destruct (Ascii.eqb c Path.sep); [discriminate|].
  destruct (Path.split s); discriminate.
Qed.

Lemma split_free (s : string) : occurs Path.sep s = false → Path.split s = [s].
Proof.
  induction s as [|c s IH]; simpl; [reflexivity|].
  intros O. apply orb_false_iff in O as [C O].
  rewrite Ascii.eqb_sym in C. rewrite C, (IH O). reflexivity.
Qed.

Lemma split_app (a b : string) :
  Path.split (a +:+ String Path.sep b) = Path.split a ++ Path.split b.
Proof.
  induction a as [|c a IH].
  - reflexivity.
  - change (Path.split (String c (a +:+ String Path.sep b))
            = Path.split (String c a) ++ Path.split b).
    simpl. destruct (Ascii.eqb c Path.sep).
    + rewrite IH. reflexivity.
    + rewrite IH. pose proof (split_nonempty a) as N.
      destruct (Path.split a) as [|x l]; [contradiction|]. reflexivity.
Qed.

Lemma split_segments (gs : list string) :
  gs ≠ [] → Forall plain_segment gs → Path.split (String.concat "/" gs) = gs.
Proof.
  induction gs as [|g gs IH]; [contradiction|]. intros _ G.
  apply Forall_cons in G as [[O _] G]. destruct gs as [|g' gs].
  - simpl. apply split_free, O.
  - change (String.concat "/" (g :: g' :: gs))
      with (g +:+ String Path.sep (String.concat "/" (g' :: gs))).
    rewrite split_app, (split_free g O), IH; [reflexivity|discriminate|exact G].
Qed.

Lemma step_plain (allow : bool) (kept : list string) (g : string) :
  plain_segment g → Path.step allow kept g = g :: kept.
Proof.
  intros (_ & N1 & N2 & N3). unfold Path.step.
  destruct (String.eqb_spec g ""); [contradiction|].
  destruct (String.eqb_spec g "."); [contradiction|].
  destruct (String.eqb_spec g ".."); [contradiction|]. reflexivity.
Qed.

Lemma fold_plain (allow : bool) (gs : list string) : ∀ kept,
  Forall plain_segment gs → fold_left (Path.step allow) gs kept = rev gs ++ kept.
Proof.
  induction gs as [|g gs IH]; intros kept G; [reflexivity|].
  apply Forall_cons in G as [Gg G]. simpl.
  rewrite (step_plain _ _ _ Gg), (IH _ G), <- app_assoc. reflexivity.
Qed.

Lemma concat_app (l gs : list string) :
  gs ≠ [] → String.concat "/" (l ++ gs) = each_with_sep l +:+ String.concat "/" gs.
Proof.
  intros N. induction l as [|x l IH]; [reflexivity|].
  simpl app. destruct (l ++ gs) as [|y r] eqn:E.
  - destruct l; [contradiction|discriminate].
  - change (String.concat "/" (x :: y :: r)) with (x +:+ "/" +:+ String.concat "/" (y :: r)).
    rewrite IH. simpl each_with_sep. rewrite !append_assoc. reflexivity.
Qed.

Lemma trailing_app (a b : string) :
  b ≠ "" → Path.trailingSeparator (a +:+ b) = Path.trailingSeparator b.
Proof.
  intros N. induction a as [|c a IH]; [reflexivity|].
  change (Path.trailingSeparator (String c (a +:+ b)) = Path.trailingSeparator b).
  simpl. destruct (a +:+ b) eqn:E.
  - destruct a; [contradiction|discriminate].
  - exact IH.
Qed.

Lemma trailing_free (s : string) :
  occurs Path.sep s = false → Path.trailingSeparator s = false.
Proof.
  induction s as [|c s IH]; [reflexivity|]. simpl. intros O.
  apply orb_false_iff in O as [C O]. rewrite Ascii.eqb_sym in C.
  destruct s; [exact C|apply IH, O].
Qed.

Lemma concat_last (gs : list string) :
  gs ≠ [] → Forall plain_segment gs → ∃ l g, plain_segment g ∧ String.concat "/" gs = l +:+ g.
Proof.
  induction gs as [|g gs IH]; [contradiction|]. intros _ G.
  apply Forall_cons in G as [Gg G]. destruct gs as [|g' gs].
  - exists "", g. auto.
  - destruct IH as (l & x & Gx & E); [discriminate|exact G|].
    exists (g +:+ "/" +:+ l), x. split; [exact Gx|].
    change (String.concat "/" (g :: g' :: gs))
      with (g +:+ "/" +:+ String.concat "/" (g' :: gs)).
    rewrite E, !append_assoc. reflexivity.
Qed.

Lemma concat_segments_trailing (a : string) (gs : list string) :
  gs ≠ [] → Forall plain_segment gs →
  Path.trailingSeparator (a +:+ String.concat "/" gs) = false.
Proof.
  intros N G. destruct (concat_last gs N G) as (l & g & (O & Ng & _) & ->).
  rewrite <- append_assoc, trailing_app; [apply trailing_free, O|exact Ng].
Qed.

Lemma concat_nonempty (gs : list string) :
  gs ≠ [] → Forall plain_segment gs → String.concat "/" gs ≠ "".
Proof.
  intros N G. destruct gs as [|g gs]; [contradiction|].
  apply Forall_cons in G as [(_ & Ng & _) _].
  destruct gs; simpl; destruct g; try contradiction; discriminate.
Qed.

Lemma append_nonempty_r (a b : string) : b ≠ "" → a +:+ b ≠ "".
Proof. destruct a; simpl; [auto|discriminate]. Qed.

Lemma normalize_unfold (path : string) :
  path ≠ "" →
  Path.normalize path
  = match Path.normalizeString path (negb (Path.isAbsolute path)) with
    | "" => if Path.isAbsolute path then "/"
            else if Path.trailingSeparator path then "./" else "."
    | _ =>
        let kept := Path.normalizeString path (negb (Path.isAbsolute path)) in
        let kept := if Path.trailingSeparator path then kept +:+ "/" else kept in
        if Path.isAbsolute path then "/" +:+ kept else kept
    end.
Proof. destruct path; [contradiction|reflexivity]. Qed.

Lemma join_unfold (a b : string) :
  b ≠ "" → path_join a b = Path.normalize (if Str.is_empty a then b else a +:+ "/" +:+ b).
Proof. destruct a, b; try contradiction; reflexivity. Qed.

Lemma match_nonempty {A} (s : string) (x y : A) :
  s ≠ "" → match s with "" => x | String _ _ => y end = y.
Proof. destruct s; [contradiction|reflexivity]. Qed.

(** Joining a directory with plain segments appends them to a text that
    depends on the directory alone. *)
Lemma join_segments (a : string) :
  ∃ prefix, ∀ gs, gs ≠ [] → Forall plain_segment gs →
    path_join a (String.concat "/" gs) = prefix +:+ String.concat "/" gs.
Proof.
  destruct a as [|c a].
  - exists "". intros gs N G.
    pose proof (concat_nonempty gs N G) as Ne.
    assert (Ab : Path.isAbsolute (String.concat "/" gs) = false).
    { destruct gs as [|g gs]; [contradiction|].
      pose proof G as G'. apply Forall_cons in G' as [(O & Ng & _) _].
      destruct g as [|x g]; [contradiction|].
      simpl in O. apply orb_false_iff in O as [C _]. rewrite Ascii.eqb_sym in C.
      destruct gs; simpl; exact C. }
    rewrite (join_unfold _ _ Ne). simpl Str.is_empty. cbv iota.
    rewrite (normalize_unfold _ Ne), Ab. simpl negb.
    pose proof (concat_segments_trailing "" gs N G) as T.
    change (Path.trailingSeparator (String.concat "/" gs) = false) in T. rewrite T.
    unfold Path.normalizeString.
    rewrite (split_segments gs N G), (fold_plain _ _ _ G), List.app_nil_r, rev_involutive.
    rewrite (match_nonempty _ _ _ Ne). reflexivity.
  - set (d := String c a).
    set (absolute := Path.isAbsolute d).
    exists ((if absolute then "/" else "")
            +:+ each_with_sep (rev (fold_left (Path.step (negb absolute)) (Path.split d) []))).
    intros gs N G.
    pose proof (concat_nonempty gs N G) as Ne.
    rewrite (join_unfold _ _ Ne). simpl Str.is_empty. cbv iota.
    assert (Np : d +:+ "/" +:+ String.concat "/" gs ≠ "") by discriminate.
    rewrite (normalize_unfold _ Np).
    assert (Ab : Path.isAbsolute (d +:+ "/" +:+ String.concat "/" gs) = absolute)
      by reflexivity.
    rewrite Ab.
    assert (T : Path.trailingSeparator (d +:+ "/" +:+ String.concat "/" gs) = false).
    { rewrite <- append_assoc. apply concat_segments_trailing; assumption. }
    rewrite T.
    unfold Path.normalizeString.
    change (d +:+ "/" +:+ String.concat "/" gs)
      with (d +:+ String Path.sep (String.concat "/" gs)).
    rewrite split_app, fold_left_app, (split_segments gs N G), (fold_plain _ _ _ G).
    rewrite rev_app_distr, rev_involutive, (concat_app _ gs N).
    set (p := each_with_sep _).
    rewrite match_nonempty; [|apply append_nonempty_r, Ne].
    destruct absolute; simpl; rewrite ?append_assoc; reflexivity.
Qed.

End PathFacts.

Lemma occurs_app (c : ascii) (a b : string) :
  occurs c (a +:+ b) = occurs c a || occurs c b.
Proof.
  induction a as [|x a IH]; [reflexivity|].
  change (occurs c (String x (a +:+ b)) = occurs c (String x a) || occurs c b).
  simpl. rewrite IH, orb_assoc. reflexivity.
Qed.

(** A text that starts with something free of dots is neither [.] nor
    [..]. *)
Lemma dotless_start (a b : string) :
  occurs "." a = false → a ≠ "" → a +:+ b ≠ "." ∧ a +:+ b ≠ "..".
Proof.
  destruct a as [|x a]; [contradiction|]. intros O _.
  simpl in O. apply orb_false_iff in O as [C _].
  split; intros [= -> _]; discriminate.
Qed.

Lemma plain_of_Z (n : Z) : plain_segment (Str.of_Z n).
Proof.
  split; [apply occurs_of_Z; auto|]. split; [apply of_Z_nonempty|].
  rewrite <- (append_empty_r (Str.of_Z n)).
  apply dotless_start; [apply occurs_of_Z; auto|apply of_Z_nonempty].
Qed.

Lemma plain_openproject : plain_segment "openproject".
Proof. repeat split; discriminate. Qed.

(** The last segment of the destination of an attachment with a numeric
    identifier and a file name without separator. *)
Lemma plain_file_segment (n : Z) (fileName : string) :
  occurs Path.sep fileName = false →
  plain_segment (Str.of_Z n +:+ "." +:+ fileName).
Proof.
  intros O. split.
  - rewrite occurs_app, occurs_of_Z by auto. simpl. exact O.
  - split; [apply append_nonempty_r; discriminate|].
    apply dotless_start; [apply occurs_of_Z; auto|apply of_Z_nonempty].
Qed.

(** The scratch directory is the temporary directory, normalised, followed
    by [openproject] and the number of the work package. *)
Lemma scratch_directory_shape :
  ∃ prefix, ∀ workPackageId,
    scratch_directory workPackageId
    = prefix +:+ "openproject/" +:+ Str.of_Z workPackageId.
Proof.
  destruct (join_segments os_tmpdir) as (prefix & J). exists prefix.
  intros workPackageId. unfold scratch_directory.
  apply (J ["openproject"; Str.of_Z workPackageId]); [discriminate|].
  apply Forall_cons. split; [apply plain_openproject|].
  apply Forall_cons. split; [apply plain_of_Z|]. constructor.
Qed.




(** *** Scratch paths, continued *)

(** X14.  Different work packages have different scratch directories. *)
Theorem scratch_directory_distinct (i j : Z) :
  i ≠ j → scratch_directory i ≠ scratch_directory j.
Proof.
  destruct scratch_directory_shape as (prefix & S).
  intros N E. apply N. rewrite !S in E.
  apply append_cancel in E. apply (append_cancel "openproject/") in E.
  apply of_Z_inj, E.
Qed.

(** X15.  Inside one scratch directory, the destination of an attachment
    with a numeric identifier and a file name that holds no separator
    determines the attachment and the file name: two such attachments
    that differ in one of these never land on the same path.  The
    destination is the directory, normalised, followed by the identifier,
    a dot and the file name. *)
Theorem attachment_path_distinct (tempDir : string) (n m : Z) (a b : Attachment.t) :
  Attachment.id a = IdNumber n →
  Attachment.id b = IdNumber m →
  occurs Path.sep (Attachment.fileName a) = false →
  occurs Path.sep (Attachment.fileName b) = false →
  n ≠ m ∨ Attachment.fileName a ≠ Attachment.fileName b →
  attachment_path tempDir a ≠ attachment_path tempDir b.
Proof.
  intros Ia Ib Oa Ob N. unfold attachment_path.
  rewrite Ia, Ib. simpl Ident.to_string.
  destruct (join_segments tempDir) as (prefix & J).
  assert (K : ∀ k fileName, occurs Path.sep fileName = false →
            path_join tempDir (Str.of_Z k +:+ "." +:+ fileName)
            = prefix +:+ Str.of_Z k +:+ "." +:+ fileName).
  { intros k fileName O. apply (J [Str.of_Z k +:+ "." +:+ fileName]); [discriminate|].
    apply Forall_cons. split; [apply plain_file_segment, O|constructor]. }
  rewrite (K n _ Oa), (K m _ Ob).
  intros E. apply append_cancel in E.
  apply (split_unique ".") in E as [Enm E]; [|apply occurs_of_Z; auto..].
  apply of_Z_inj in Enm. tauto.
Qed.

End Coverage.

(** *** The variants *)

(** X16.  The first TypeScript variant, configured with a base address
    that ends in [/api/v3], sends the same requests and returns the same
    responses as the later variant configured with the address without
    that suffix, for the two tools they share. *)
Theorem index_ts_agrees `{Host} {R : Type} `{Remote R}
    `{FromJSON WorkPackage.t} `{FromJSON AvailableStatusesResponse.t}
    `{FromJSON ErrorResponse.t}
    (first later : Config) (workPackageId : Z) (status : string) (w : World.t R) :
  @apiBaseUrl first = @apiBaseUrl later +:+ "/api/v3" →
  @apiKey first = @apiKey later →
  @IndexTs.get_work_package_detail _ first _ _ _ _ _ workPackageId w
  = @get_work_package_detail _ later _ _ _ _ _ workPackageId w
  ∧ @IndexTs.change_work_package_status _ first _ _ _ _ _ workPackageId status w
    = @change_work_package_status _ later _ _ _ _ _ workPackageId status w.
Proof.
  intros U K.
  assert (Q : ∀ endpoint method body,
            @IndexTs.api_request first endpoint method body
            = @api_request later endpoint method body).
  { intros. unfold IndexTs.api_request, api_request, request_headers, authorization.
    rewrite U, K, append_assoc. reflexivity. }
  assert (C : ∀ T (D : FromJSON T) endpoint method body (w : World.t R),
            @IndexTs.callOpenProjectAPI _ first _ _ _ T D endpoint method body w
            = @callOpenProjectAPI _ later _ _ _ T D endpoint method body w).
  { intros. unfold IndexTs.callOpenProjectAPI, callOpenProjectAPI. rewrite Q. reflexivity. }
  split.
  - unfold IndexTs.get_work_package_detail, get_work_package_detail, try_catch, bind.
    rewrite C. destruct (callOpenProjectAPI _ _ _ w) as [[data|e|e] w1]; [|reflexivity..].
    rewrite C. reflexivity.
  - unfold IndexTs.change_work_package_status, change_work_package_status, try_catch, bind.
    rewrite C. destruct (callOpenProjectAPI _ _ _ w) as [[workPackage|e|e] w1];
      [|reflexivity..].
    rewrite C.
    destruct (callOpenProjectAPI _ _ _ w1) as [[statuses|e|e] w2]; [|reflexivity..].
    destruct (List.find _ _); [|reflexivity].
    rewrite C. reflexivity.
Qed.

(** X22.  The start-up line of the compiled first variant does not mask
    a short key: a key of one to three bytes is logged in full, twice. *)
Theorem key_line_short_key (apiKey : string) :
  apiKey ≠ "" → (String.length apiKey <= 3)%nat →
  Compiled.key_line apiKey = "API Key: " +:+ apiKey +:+ "..." +:+ apiKey.
Proof.
  intros N L.
  destruct apiKey as [|a [|b [|c [|d k]]]]; simpl in L; try lia;
    [contradiction | reflexivity..].
Qed.

(** X17.  The Go tool never looks at the HTTP status: whenever the body
    arrives and decodes, it returns the text of the minimal work package,
    also for an answer whose status is an error; only a failed exchange, a
    broken body or an undecodable body make it return an error. *)
Theorem go_tool_ignores_status {R : Type} `{Remote R} `{GoTool.Json}
    (apiKey : string) (WorkPackageID : Z) (w : World.t R)
    (resp : Response.t) (remote' : R) :
  fetch (Go.newRequest apiKey WorkPackageID) (World.remote w) = (Resolved resp, remote') →
  Response.bodyError resp = None →
  (∀ wpResp, GoTool.json_Unmarshal (Response.text resp) = Some wpResp →
     fst (GoTool.get_detail_work_package_by_id apiKey WorkPackageID w)
     = Return (GoTool.json_Marshal (JObject (GoTool.members (GoTool.minimal wpResp)))))
  ∧ (GoTool.json_Unmarshal (Response.text resp) = None →
     fst (GoTool.get_detail_work_package_by_id apiKey WorkPackageID w)
     = Throw (GoTool.unmarshal_error (Response.text resp))).
Proof.
  intros F B. unfold GoTool.get_detail_work_package_by_id, bind, do_fetch.
  rewrite F. simpl. rewrite B. split.
  - intros wpResp ->. reflexivity.
  - intros ->. reflexivity.
Qed.

(** X18.  The minimal work package of the Go tool reports the link of the
    first attachment only and the comment of the first activity only: the
    member [evidence] is written exactly when there is a first attachment
    with a non-empty link, the member [comment] exactly when there is a
    first activity with a non-empty comment, and later attachments and
    activities never show. *)
Theorem go_minimal_first_only (wpResp : GoTool.WorkPackageResponse) :
  JS.assoc "evidence" (GoTool.members (GoTool.minimal wpResp))
  = match GoTool.Attachments wpResp with
    | String c href :: _ => JString (String c href)
    | _ => JUndefined
    end
  ∧ JS.assoc "comment" (GoTool.members (GoTool.minimal wpResp))
    = match GoTool.Activities wpResp with
      | String c raw :: _ => JString (String c raw)
      | _ => JUndefined
      end
  ∧ map fst (GoTool.members (GoTool.minimal wpResp))
    = ["id"; "subject"; "status"; "assignee"; "description"]
      ++ match GoTool.Attachments wpResp with
         | String _ _ :: _ => ["evidence"]
         | _ => []
         end
      ++ match GoTool.Activities wpResp with
         | String _ _ :: _ => ["comment"]
         | _ => []
         end.
Proof.
  unfold GoTool.minimal, GoTool.members.
  destruct (GoTool.Attachments wpResp) as [|[|c href] attachments];
    destruct (GoTool.Activities wpResp) as [|[|c' raw] activities];
    repeat split.
Qed.

(* ================================================================== *)
(** ** The properties on the concrete scenario *)

Module Scenario.

Import Demo.

(** The encoder on the test vectors of RFC 4648 and on a credential. *)
Lemma base64_vectors :
  map Base64.encode ["f"; "fo"; "foo"; "foob"; "fooba"; "foobar"; "apikey:abc"]
  = ["Zg=="; "Zm8="; "Zm9v"; "Zm9vYg=="; "Zm9vYmE="; "Zm9vYmFy"; "YXBpa2V5OmFiYw=="].
Proof. reflexivity. Qed.

Lemma change_status_update_request_witness :
  World.sent (snd (change_work_package_status 42 "closed" world0))
  = [ api_request "/work_packages/42" "GET" JUndefined;
      api_request "/statuses" "GET" JUndefined;
      Request.mk "https://openproject.example.org/api/v3/work_packages/42" "PATCH"
        request_headers
        (Some (JS.stringify
                 (JObject [
                    ("lockVersion", JNumber 3);
                    ("_links",
                      JObject [("status", JObject [("href", JString "/api/v3/statuses/12")])])
                  ]))) ].
Proof.
  etransitivity;
    [apply (change_status_update_request 42 "closed" world0
              (after_work_package 42) (after_statuses 42)
              (work_package 42 3 status_new) catalog status_closed)|];
    vm_compute; reflexivity.
Defined.

Lemma change_status_matching_name_witness :
  fst (change_work_package_status 42 "closed" world0)
  = Return (ToolResult.mk
              ("Successfully updated work package #42 status from " +:+ Str.dq +:+ "New"
               +:+ Str.dq +:+ " to " +:+ Str.dq +:+ "Closed" +:+ Str.dq +:+ "."
               +:+ Str.nl +:+ Str.nl +:+ "Updated work package:" +:+ Str.nl
               +:+ JS.stringify_pretty
                     (formatWorkPackage (work_package 42 4 status_closed) catalog))
              None)
  ∧ JS.get "status" (formatWorkPackage (work_package 42 4 status_closed) catalog)
    = JString "Closed".
Proof.
  destruct (change_status_matching_name 42 "closed" world0
              (after_work_package 42) (after_statuses 42)
              (work_package 42 3 status_new) catalog status_closed)
    as (targetStatus & F & _ & S & _).
  - vm_compute; reflexivity.
  - vm_compute; reflexivity.
  - simpl; auto.
  - reflexivity.
  - intros s [<-|[<-|[<-|[]]]] E; vm_compute in E; try discriminate E; reflexivity.
  - vm_compute in F. injection F as <-.
    destruct (S (work_package 42 4 status_closed)
                (snd (change_work_package_status 42 "closed" world0))) as [W Rec];
      [vm_compute; reflexivity|].
    split; [rewrite W; reflexivity|].
    apply (Rec _ status_closed eq_refl eq_refl); [reflexivity|discriminate].
Defined.

Lemma change_status_unknown_name_witness :
  change_work_package_status 42 "cancelled" world0
  = (Return (ToolResult.mk
               ("Error: Status " +:+ Str.dq +:+ "cancelled" +:+ Str.dq
                +:+ " is not available for work package #42."
                +:+ " Available statuses are: New, In Progress, Closed")
               (Some true)), after_statuses 42).
Proof.
  apply (change_status_unknown_name 42 "cancelled" world0
           (after_work_package 42) (after_statuses 42)
           (work_package 42 3 status_new) catalog).
  - vm_compute; reflexivity.
  - vm_compute; reflexivity.
  - intros s [<-|[<-|[<-|[]]]] E; vm_compute in E; discriminate E.
Defined.

Lemma download_no_attachments_witness :
  download_work_package_attachments 8 world0
  = (Return (ToolResult.mk "No attachments found for work package #8." (Some false)),
     after_attachments 8)
  ∧ World.dirs (after_attachments 8) = World.dirs world0
  ∧ World.files (after_attachments 8) = World.files world0.
Proof.
  apply (download_no_attachments 8 world0 (after_attachments 8) (collection [])).
  - vm_compute; reflexivity.
  - reflexivity.
Defined.

Lemma callOpenProjectAPI_non_success_witness :
  ∃ message : string,
    fst (callOpenProjectAPI (T := WorkPackage.t) "/work_packages/43" "PATCH"
           (updatePayload (work_package 43 5 status_new) status_closed) world0)
    = Throw ("OpenProject API error (409): " +:+ message)
    ∧ message ≠ "".
Proof.
  destruct (callOpenProjectAPI_non_success (T := WorkPackage.t) "/work_packages/43" "PATCH"
              (updatePayload (work_package 43 5 status_new) status_closed) world0
              (Response.mk 409 "Conflict" "conflict" None) tt)
    as (_ & W & _).
  - vm_compute; reflexivity.
  - reflexivity.
  - destruct (W eq_refl) as (message & E & N & _).
    exists message. split; [exact E | exact N].
Defined.

Lemma formatWorkPackage_defaults_witness :
  JS.get "assignee" (formatWorkPackage (work_package 42 3 status_new) catalog)
  = JString "Unassigned"
  ∧ JS.get "description" (formatWorkPackage (work_package 42 3 status_new) catalog)
    = JString "No description"
  ∧ JS.get "startDate" (formatWorkPackage (work_package 42 3 status_new) catalog)
    = JString "No start date"
  ∧ JS.get "dueDate" (formatWorkPackage (work_package 42 3 status_new) catalog)
    = JString "No due date"
  ∧ JS.get "estimatedTime" (formatWorkPackage (work_package 42 3 status_new) catalog)
    = JString "No estimate"
  ∧ JS.get "percentageDone" (formatWorkPackage (work_package 42 3 status_new) catalog)
    = JNumber 0
  ∧ get_work_package_detail 42 world0
    = (Return (ToolResult.mk
                 ("Work Package #42 Details:" +:+ Str.nl
                  +:+ JS.stringify_pretty
                        (formatWorkPackage (work_package 42 3 status_new) catalog))
                 None), after_statuses 42).
Proof.
  destruct (formatWorkPackage_defaults (R := unit) (work_package 42 3 status_new) catalog)
    as (members & E & _ & _ & A & D & S & U & T & P & _ & G).
  rewrite E. simpl.
  split; [apply A; reflexivity|].
  split; [apply D; reflexivity|].
  split; [apply S; reflexivity|].
  split; [apply U; reflexivity|].
  split; [apply T; reflexivity|].
  split; [apply P; reflexivity|].
  apply (G 42 world0 (after_work_package 42) (after_statuses 42)); vm_compute; reflexivity.
Defined.

(** C4 on an attachment without the link.  The collection of work package
    9 holds a downloadable attachment and one whose [_links] has no
    [staticDownloadLocation]: no skipped entry is returned, the whole tool
    fails with the [TypeError] of the read of [href]. *)
Theorem download_missing_link_fails :
  Links.get "staticDownloadLocation" (Attachment._links att_bare) = None
  ∧ fst (callOpenProjectAPI (T := AttachmentCollectionResponse.t)
           "/work_packages/9/attachments" "GET" JUndefined world0)
    = Return (collection [att_spec; att_bare])
  ∧ fst (download_work_package_attachments 9 world0)
    = Return (ToolResult.mk
                ("Error processing attachments for work package #9: "
                 +:+ "Cannot read properties of undefined (reading 'href')")
                (Some true)).
Proof. repeat split. Qed.

(** C5 on a collection with one failed transfer and a missing link.  The
    collection of work package 7 holds an attachment whose transfer is
    answered with status 500 and one whose [_links] has no
    [staticDownloadLocation]: the tool does not return a ledger of two
    entries, it fails as a whole. *)
Theorem download_failed_transfer_then_missing_link :
  fst (callOpenProjectAPI (T := AttachmentCollectionResponse.t)
         "/work_packages/7/attachments" "GET" JUndefined world0)
  = Return (collection [att_shot; att_bare])
  ∧ fst (downloadFile (content_of 3) "/tmp/openproject/7/3.shot.png"
           (with_directory "/tmp/openproject/7" (after_attachments 7)))
    = Throw "Failed to download file: 500 Internal Server Error"
  ∧ fst (download_work_package_attachments 7 world0)
    = Return (ToolResult.mk
                ("Error processing attachments for work package #7: "
                 +:+ "Cannot read properties of undefined (reading 'href')")
                (Some true)).
Proof. repeat split. Qed.

End Scenario.

(* ================================================================== *)
(** ** The further properties on concrete inputs *)

Module Checks.

Import Demo.

Lemma get_work_package_detail_failure_witness :
  get_work_package_detail 99 world0
  = (Return (ToolResult.mk
               "Error retrieving work package #99: OpenProject API error (404): Unknown error"
               (Some true)), after_work_package 99)
  ∧ World.sent (after_work_package 99)
    = World.sent world0 ++ [api_request "/work_packages/99" "GET" JUndefined].
Proof.
  apply (get_work_package_detail_failure 99 world0 (after_work_package 99)
           "OpenProject API error (404): Unknown error").
  vm_compute; reflexivity.
Defined.

Lemma change_status_update_rejected_witness :
  fst (change_work_package_status 43 "closed" world0)
  = Return (ToolResult.mk
              ("Error updating work package #43 status: OpenProject API error (409): "
               +:+ "Could not update the resource because of conflicting modifications.")
              (Some true)).
Proof.
  pose proof (change_status_update_rejected 43 "closed" world0
                (after_work_package 43) (after_statuses 43)
                (snd (change_work_package_status 43 "closed" world0))
                (work_package 43 5 status_new) catalog status_closed
                ("OpenProject API error (409): "
                 +:+ "Could not update the resource because of conflicting modifications."))
    as W.
  destruct W as [W _]; [vm_compute; reflexivity..|].
  rewrite W. reflexivity.
Defined.

Lemma downloadFile_refused_witness :
  fst (downloadFile (content_of 3) "/tmp/openproject/42/3.shot.png" world0)
  = Throw "Failed to download file: 500 Internal Server Error"
  ∧ World.files (snd (downloadFile (content_of 3) "/tmp/openproject/42/3.shot.png" world0))
    = ∅.
Proof.
  rewrite (downloadFile_refused (content_of 3) "/tmp/openproject/42/3.shot.png" world0
             (Response.mk 500 "Internal Server Error" "" None) tt);
    [split; reflexivity | vm_compute; reflexivity | reflexivity].
Defined.

Lemma downloadFile_stores_body_witness :
  fst (downloadFile (content_of 1) "/tmp/openproject/42/1.spec.pdf" world0) = Return tt
  ∧ World.files (snd (downloadFile (content_of 1) "/tmp/openproject/42/1.spec.pdf" world0))
    !! "/tmp/openproject/42/1.spec.pdf" = Some "%PDF"
  ∧ fst (downloadFile (content_of 1) "/tmp/openproject/42/5.a/b.txt" world0)
    = Dies "ENOENT: no such file or directory, open '/tmp/openproject/42/5.a/b.txt'".
Proof.
  split; [|split].
  - destruct (downloadFile_stores_body (content_of 1) "/tmp/openproject/42/1.spec.pdf"
                world0 (Response.mk 200 "OK" "%PDF" None) tt) as [W _];
      [vm_compute; reflexivity | reflexivity |].
    destruct (W eq_refl eq_refl) as (A & _). exact A.
  - destruct (downloadFile_stores_body (content_of 1) "/tmp/openproject/42/1.spec.pdf"
                world0 (Response.mk 200 "OK" "%PDF" None) tt) as [W _];
      [vm_compute; reflexivity | reflexivity |].
    destruct (W eq_refl eq_refl) as (_ & B & _). exact B.
  - destruct (downloadFile_stores_body (content_of 1) "/tmp/openproject/42/5.a/b.txt"
                world0 (Response.mk 200 "OK" "%PDF" None) tt) as (_ & _ & W);
      [vm_compute; reflexivity | reflexivity |].
    destruct (W _ eq_refl) as [D _]. exact D.
Defined.

(** The transfers of the collection of work package 42: a download, a
    skip and a refused transfer. *)
Lemma transfers_42 :
  transfers "/tmp/openproject/42" [att_spec; att_log; att_shot]
    (with_directory "/tmp/openproject/42" (after_attachments 42))
    [Downloaded; Skipped; Failed "Failed to download file: 500 Internal Server Error"]
    (snd (download_work_package_attachments 42 world0)).
Proof.
  eapply transfers_done; [reflexivity | reflexivity | vm_compute; reflexivity |].
  eapply transfers_skip; [reflexivity | left; reflexivity |].
  eapply transfers_failed; [reflexivity | reflexivity | vm_compute; reflexivity |].
  match goal with |- transfers _ [] ?w _ ?w' =>
    replace w' with w by (vm_compute; reflexivity) end.
  apply transfers_nil.
Qed.

Lemma download_aggregates_witness :
  ∃ os,
    length (entries_of [att_spec; att_log; att_shot] os) = 3%nat
    ∧ fst (download_work_package_attachments 42 world0)
      = Return (ToolResult.mk
                  ("Download results for work package #42:" +:+ Str.nl
                   +:+ Str.join Str.nl (entries_of [att_spec; att_log; att_shot] os)
                   +:+ Str.nl +:+ Str.nl +:+ "Files saved to: /tmp/openproject/42"
                   +:+ Str.nl +:+ Str.nl +:+ "File mapping:" +:+ Str.nl
                   +:+ JS.stringify_pretty
                         (fileMapping
                            (files_of "/tmp/openproject/42"
                               [att_spec; att_log; att_shot] os)))
                  None).
Proof.
  destruct (download_aggregates 42 world0 (after_attachments 42)
              (collection [att_spec; att_log; att_shot]))
    as (os & w' & _ & L & W).
  - vm_compute; reflexivity.
  - discriminate.
  - repeat constructor; eexists; reflexivity.
  - repeat constructor.
  - exists os. split; [exact L|]. rewrite W. reflexivity.
Defined.

(** The response of that run, in full. *)
Lemma download_42 :
  fst (download_work_package_attachments 42 world0)
  = Return (ToolResult.mk
              ("Download results for work package #42:" +:+ Str.nl
               +:+ Str.join Str.nl
                     [downloaded_entry att_spec; skipped_entry att_log;
                      failed_entry att_shot
                        "Failed to download file: 500 Internal Server Error"]
               +:+ Str.nl +:+ Str.nl +:+ "Files saved to: /tmp/openproject/42"
               +:+ Str.nl +:+ Str.nl +:+ "File mapping:" +:+ Str.nl
               +:+ JS.stringify_pretty
                     (fileMapping
                        [DownloadedFile.mk (IdNumber 1) "spec.pdf"
                           "/tmp/openproject/42/1.spec.pdf" 10 "application/octet-stream"]))
              None).
Proof. vm_compute. reflexivity. Qed.

Lemma download_requests_in_order_witness :
  World.sent (snd (download_work_package_attachments 42 world0))
  = [api_request "/work_packages/42/attachments" "GET" JUndefined;
     download_request (content_of 1); download_request (content_of 3)].
Proof.
  destruct (download_requests_in_order _ _ _ _ _ transfers_42) as [W _].
  rewrite W. reflexivity.
Defined.



Lemma scratch_directory_distinct_witness :
  scratch_directory 7 ≠ scratch_directory 70.
Proof. apply scratch_directory_distinct. discriminate. Defined.

(** Identifier 1 with the name [1.x] and identifier 11 with the name [x]
    do not collide. *)
Lemma attachment_path_distinct_witness :
  attachment_path (scratch_directory 42) (attachment 1 "1.x" ∅)
  ≠ attachment_path (scratch_directory 42) (attachment 11 "x" ∅).
Proof.
  apply (attachment_path_distinct (scratch_directory 42) 1 11);
    [reflexivity | reflexivity | reflexivity | reflexivity |].
  left. discriminate.
Defined.

(** A file name with separators escapes the rule: normalisation sends
    two different names to one path. *)
Lemma attachment_path_collision :
  attachment_path (scratch_directory 42) (attachment 1 "x/../1.y" ∅)
  = attachment_path (scratch_directory 42) (attachment 1 "y" ∅).
Proof. vm_compute. reflexivity. Qed.

Lemma key_line_short_key_witness :
  Compiled.key_line "ab" = "API Key: ab...ab".
Proof. apply (key_line_short_key "ab"); [discriminate | simpl; lia]. Defined.

Lemma startup_serves_with_key_witness :
  apiKey (Config := Build_Config "https://op.example.org" "abc") ≠ ""
  ∧ Startup.help (Startup.mkArgs None (Some "") None) ≠ Some true.
Proof.
  destruct (startup_serves_with_key
              (Startup.mkArgs None (Some "") None)
              (Startup.mkEnv (Some "https://op.example.org") (Some "abc"))
              (Build_Config "https://op.example.org" "abc")) as (A & B & _);
    [reflexivity|]. split; [exact A | exact B].
Defined.

Lemma resolve_key_nonempty_witness :
  "abc" ≠ "" ∧ "abc" = (if Str.is_empty "" then "abc" else "").
Proof. apply (resolve_key_nonempty "" "abc" "abc"). reflexivity. Defined.

End Checks.

Module ScriptChecks.

Import Script.

Lemma change_status_first_match_witness :
  World.sent
    (snd (change_work_package_status 42 "closed"
            (world [ok_ "wp42"; ok_ "statuses-ties"; ok_ "wp42-closed"])))
  = [api_request "/work_packages/42" "GET" JUndefined;
     api_request "/statuses" "GET" JUndefined;
     api_request "/work_packages/42" "PATCH"
       (updatePayload (Demo.work_package 42 3 Demo.status_new) status_closed_upper)].
Proof.
  rewrite (change_status_first_match 42 "closed"
             (world [ok_ "wp42"; ok_ "statuses-ties"; ok_ "wp42-closed"])
             (World.mk [ok_ "statuses-ties"; ok_ "wp42-closed"]
                [api_request "/work_packages/42" "GET" JUndefined] ∅ ∅)
             (World.mk [ok_ "wp42-closed"]
                [api_request "/work_packages/42" "GET" JUndefined;
                 api_request "/statuses" "GET" JUndefined] ∅ ∅)
             (Demo.work_package 42 3 Demo.status_new) catalog_ties
             [Demo.status_new] [Demo.status_closed] status_closed_upper).
  - reflexivity.
  - vm_compute; reflexivity.
  - vm_compute; reflexivity.
  - reflexivity.
  - repeat constructor. vm_compute. discriminate.
  - reflexivity.
Defined.

Lemma formatWorkPackage_passes_values_witness :
  JS.get "description" (formatWorkPackage work_package_full Demo.catalog)
  = JString "Users cannot log in."
  ∧ JS.get "startDate" (formatWorkPackage work_package_full Demo.catalog)
    = JString "2024-01-03"
  ∧ JS.get "dueDate" (formatWorkPackage work_package_full Demo.catalog)
    = JString "2024-01-10"
  ∧ JS.get "estimatedTime" (formatWorkPackage work_package_full Demo.catalog)
    = JString "PT8H"
  ∧ JS.get "percentageDone" (formatWorkPackage work_package_full Demo.catalog)
    = JNumber 40
  ∧ JS.get "status" (formatWorkPackage work_package_full Demo.catalog)
    = JString "In Progress"
  ∧ JS.get "assignee" (formatWorkPackage work_package_full Demo.catalog)
    = JString "Ada".
Proof.
  destruct (formatWorkPackage_passes_values work_package_full Demo.catalog)
    as (_ & _ & D & S & U & T & P & St & A).
  split; [apply (D _ eq_refl); discriminate|].
  split; [apply (S _ eq_refl); discriminate|].
  split; [apply (U _ eq_refl); discriminate|].
  split; [apply (T _ eq_refl); discriminate|].
  split; [apply (P _ eq_refl); discriminate|].
  split; [apply (St _ _ eq_refl eq_refl); discriminate|].
  apply (A _ _ eq_refl eq_refl); discriminate.
Defined.

Lemma index_ts_agrees_witness :
  @IndexTs.get_work_package_detail _ first_config _ _ _ _ _ 42
    (world [ok_ "wp42"; ok_ "statuses"])
  = @get_work_package_detail _ config _ _ _ _ _ 42 (world [ok_ "wp42"; ok_ "statuses"])
  ∧ @IndexTs.change_work_package_status _ first_config _ _ _ _ _ 42 "closed"
      (world [ok_ "wp42"; ok_ "statuses"])
    = @change_work_package_status _ config _ _ _ _ _ 42 "closed"
        (world [ok_ "wp42"; ok_ "statuses"]).
Proof. apply index_ts_agrees; reflexivity. Defined.

(** An answer with status 404 whose body decodes is reported as a work
    package. *)
Lemma go_tool_ignores_status_witness :
  fst (GoTool.get_detail_work_package_by_id "abc" 42
         (world [Resolved (Response.mk 404 "Not Found" "go-work-package" None)]))
  = Return (JS.stringify
              (JObject [("id", JNumber 42); ("subject", JString "Fix login");
                        ("status", JString "New"); ("assignee", JString "Ada");
                        ("description", JString "Users cannot log in.");
                        ("evidence", JString "/api/v3/attachments/1/content")])).
Proof.
  destruct (go_tool_ignores_status "abc" 42
              (world [Resolved (Response.mk 404 "Not Found" "go-work-package" None)])
              (Response.mk 404 "Not Found" "go-work-package" None) [])
    as [W _]; [reflexivity | reflexivity |].
  rewrite (W go_response eq_refl). reflexivity.
Defined.

End ScriptChecks.

(* ================================================================== *)
(** ** Where the specification and the server part *)

Module Divergence.

Import Script.

(** C2, as stated, fails in three ways.  The requested name [closed]
    equals the catalog name [Closed] up to case, and the update is refused
    with status 409: the tool returns a failure.  The update is accepted
    and answered with the document the server held before: the tool
    succeeds, its text reports the transition to [Closed], and the member
    [status] of the returned record is [New].  The requested name is the
    empty name of a catalog entry and the answer embeds that entry: the
    member [status] of the returned record is [Unknown status]. *)
Lemma change_status_not_reported :
  (In Demo.status_closed (AvailableStatusesResponse.elements Demo.catalog)
   ∧ toLowerCase (Status.name Demo.status_closed) = toLowerCase "closed"
   ∧ fst (change_work_package_status 42 "closed"
            (world [ok_ "wp42"; ok_ "statuses";
                    Resolved (Response.mk 409 "Conflict" "conflict" None)]))
     = Return (ToolResult.mk
                 ("Error updating work package #42 status: OpenProject API error (409): "
                  +:+ "Could not update the resource because of conflicting modifications.")
                 (Some true)))
  ∧ (fst (change_work_package_status 42 "closed"
            (world [ok_ "wp42"; ok_ "statuses"; ok_ "wp42"]))
     = Return (ToolResult.mk
                 ("Successfully updated work package #42 status from " +:+ Str.dq +:+ "New"
                  +:+ Str.dq +:+ " to " +:+ Str.dq +:+ "Closed" +:+ Str.dq +:+ "."
                  +:+ Str.nl +:+ Str.nl +:+ "Updated work package:" +:+ Str.nl
                  +:+ JS.stringify_pretty
                        (formatWorkPackage (Demo.work_package 42 3 Demo.status_new)
                           Demo.catalog))
                 None)
     ∧ JS.get "status"
         (formatWorkPackage (Demo.work_package 42 3 Demo.status_new) Demo.catalog)
       = JString "New")
  ∧ (In status_blank (AvailableStatusesResponse.elements catalog_blank)
     ∧ toLowerCase (Status.name status_blank) = toLowerCase ""
     ∧ fst (change_work_package_status 42 ""
              (world [ok_ "wp42"; ok_ "statuses-blank"; ok_ "wp42-blank"]))
       = Return (ToolResult.mk
                   ("Successfully updated work package #42 status from " +:+ Str.dq +:+ "New"
                    +:+ Str.dq +:+ " to " +:+ Str.dq +:+ Str.dq +:+ "."
                    +:+ Str.nl +:+ Str.nl +:+ "Updated work package:" +:+ Str.nl
                    +:+ JS.stringify_pretty
                          (formatWorkPackage (Demo.work_package 42 4 status_blank)
                             catalog_blank))
                   None)
     ∧ JS.get "status"
         (formatWorkPackage (Demo.work_package 42 4 status_blank) catalog_blank)
       = JString "Unknown status").
Proof. repeat split; vm_compute; auto. Qed.

(** C7, as stated, fails when the body of the error response cannot be
    read: the answer has status 500 and its body stream breaks, and the
    client throws the rejection of [response.text()], which holds the
    address and the cause and not the status code. *)
Lemma callOpenProjectAPI_broken_error_body :
  Response.ok (Response.mk 500 "Internal Server Error" "par" (Some "aborted")) = false
  ∧ fst (callOpenProjectAPI (T := WorkPackage.t) "/work_packages/42" "GET" JUndefined
           (world [Resolved (Response.mk 500 "Internal Server Error" "par"
                               (Some "aborted"))]))
    = Throw ("Invalid response body while trying to fetch "
             +:+ "https://openproject.example.org/api/v3/work_packages/42: aborted")
  ∧ (∀ message,
       fst (callOpenProjectAPI (T := WorkPackage.t) "/work_packages/42" "GET" JUndefined
              (world [Resolved (Response.mk 500 "Internal Server Error" "par"
                                  (Some "aborted"))]))
       ≠ Throw ("OpenProject API error (500): " +:+ message))
  ∧ fst (get_work_package_detail 42
           (world [Resolved (Response.mk 500 "Internal Server Error" "par"
                               (Some "aborted"))]))
    = Return (ToolResult.mk
                ("Error retrieving work package #42: "
                 +:+ "Invalid response body while trying to fetch "
                 +:+ "https://openproject.example.org/api/v3/work_packages/42: aborted")
                (Some true)).
Proof.
  split; [reflexivity|]. split; [vm_compute; reflexivity|].
  split; [|vm_compute; reflexivity].
  intros message E. vm_compute in E. discriminate E.
Qed.

End Divergence.
